(** * vibe25-worker: job dispatch and micropayment ledger

    A shallow embedding of the request handlers of
    [src/vibe25-worker/src/index.ts] and the properties of its job
    life cycle, device registry and budget ledger.

    Modelling conventions.
    - The D1 store is a record of four tables; a table is the list of
      its rows in insertion order.  [INSERT] appends, [UPDATE ... WHERE]
      rewrites every matching row in place, [.first()] yields the first
      matching row, [.all()] every matching row.  The schema is not part
      of the source, so no uniqueness constraint is built in: where a
      property needs one, it is a hypothesis or a proved invariant.
    - A JavaScript number is a binary64 float, the kernel's primitive
      [float]: every sum, difference, product and quotient rounds as the
      engine's does, and the infinities, the signed zeros and NaN are
      values like the others.  A column holds the number that was bound
      to it, and a response body is the value handed to [c.json], before
      it is serialized.
    - [Date.now()] and [Math.random()] are inputs of the handlers: the
      generated identifiers and time stamps are passed as arguments.
    - A handler is a computation over the store that may reply early;
      an early reply keeps every write made before it, as the source has
      no transaction. Store failures (the [catch] branches) are not
      modelled. *)

From Stdlib Require Import ZArith List String Bool Lia.
From Stdlib Require Import Floats Uint63.
Import ListNotations.

Open Scope string_scope.
Open Scope list_scope.

(** ** Numbers *)

Definition number : Set := float.

Module Num.

(** The float of a whole number of at most 53 bits, which is exact. *)
Definition of_Z (z : Z) : number :=
  match z with
  | Z0 => PrimFloat.zero
  | Zpos _ => PrimFloat.of_uint63 (Uint63.of_Z z)
  | Zneg p => PrimFloat.opp (PrimFloat.of_uint63 (Uint63.of_Z (Zpos p)))
  end.

Definition add (x y : number) : number := PrimFloat.add x y.
Definition sub (x y : number) : number := PrimFloat.sub x y.
Definition mul (x y : number) : number := PrimFloat.mul x y.
Definition div (x y : number) : number := PrimFloat.div x y.
Definition neg (x : number) : number := PrimFloat.opp x.

(** [x === y]: the two zeros are equal, NaN equals nothing. *)
Definition eqb (x y : number) : bool := PrimFloat.eqb x y.
(** [x < y] *)
Definition ltb (x y : number) : bool := PrimFloat.ltb x y.
(** [isNaN(x)] *)
Definition is_nan (x : number) : bool := PrimFloat.is_nan x.

(** [Math.round]: the nearest integer, a tie going up.  A float with a
    non-negative exponent is a whole number already; otherwise
    [x = n / 2^(-e)] and the result is [floor (x + 1/2)], computed on
    integers, with the sign of [x] when it is zero.  Infinities, zeros and
    NaN are returned as they are. *)
Definition round (x : number) : number :=
  match Prim2SF x with
  | S754_finite s m e =>
      if (0 <=? e)%Z then x
      else
        let n := if s then Zneg m else Zpos m in
        let k := ((2 * n + 2 ^ (- e)) / 2 ^ (1 - e))%Z in
        if (k =? 0)%Z
        then (if s then PrimFloat.neg_zero else PrimFloat.zero)
        else of_Z k
  | _ => x
  end.

(** [Number.isInteger(x)] *)
Definition is_integer (x : number) : bool :=
  match Prim2SF x with
  | S754_finite _ _ _ | S754_zero _ => eqb (round x) x
  | _ => false
  end.

(** The literals [0.01], [0.005], [0.015], [1.005], [0.0007], [0.07] and
    [1e308], each the double the engine reads it as. *)
Definition cent : number := 0x1.47ae147ae147bp-7%float.
Definition lit_0_005 : number := 0x1.47ae147ae147bp-8%float.
Definition lit_0_015 : number := 0x1.eb851eb851eb8p-7%float.
Definition lit_1_005 : number := 0x1.0147ae147ae14p+0%float.
Definition lit_0_0007 : number := 0x1.6f0068db8bac7p-11%float.
Definition lit_0_07 : number := 0x1.1eb851eb851ecp-4%float.
Definition lit_1e308 : number := 0x1.1ccf385ebc8a0p+1023%float.

(** Sum of a list of numbers, used for ledger totals. *)
Definition sum (l : list number) : number := fold_right add (of_Z 0) l.

End Num.

(** ** JavaScript truthiness *)

Class Truthy (A : Type) := truthy : A -> bool.

#[export] Instance truthy_string : Truthy string :=
  fun s => match s with EmptyString => false | _ => true end.

(** A number is falsy when it is a zero of either sign or NaN. *)
#[export] Instance truthy_number : Truthy number :=
  fun n => negb (Num.eqb n (Num.of_Z 0) || Num.is_nan n).

#[export] Instance truthy_option {A} : Truthy (option A) :=
  fun o => match o with Some _ => true | None => false end.

(** [a || b] on values of one type. *)
Definition js_or {A} `{Truthy A} (a b : A) : A := if truthy a then a else b.

(** ** JSON values *)

#[local] Unset Elimination Schemes.
Inductive json :=
| JNull
| JBool (b : bool)
| JNum (n : number)
| JStr (s : string)
| JArr (items : list json)
| JObj (fields : list (string * json)).
#[local] Set Elimination Schemes.

Definition keys (j : json) : list string :=
  match j with
  | JObj fields => map fst fields
  | _ => []
  end.

(** A response: status code and JSON body, as built by [c.json(body, status)]. *)
Record response := mkResponse { status_code : Z; body : json }.

Definition c_json (b : json) : response := mkResponse 200 b.
Definition c_json_status (b : json) (code : Z) : response := mkResponse code b.

Definition error_body (msg : string) : json := JObj [("error", JStr msg)].
Definition success_body : json := JObj [("success", JBool true)].

(** ** Data model *)

Inductive job_status := QUEUED | RUNNING | FINISHED.

Definition status_name (s : job_status) : string :=
  match s with
  | QUEUED => "QUEUED"
  | RUNNING => "RUNNING"
  | FINISHED => "FINISHED"
  end.

Definition job_status_eqb (a b : job_status) : bool :=
  match a, b with
  | QUEUED, QUEUED | RUNNING, RUNNING | FINISHED, FINISHED => true
  | _, _ => false
  end.

(** The scalar values a request can carry in [cost_usd] and that the
    store binds unchanged. *)
Inductive scalar :=
| SNull
| SNum (n : number)
| SStr (s : string).

Record device := mkDevice {
  d_id : string;
  d_user_id : string;
  d_url : string;
  d_cpu_cores : number;
  d_cpu_load : number;
  d_ram_total : number;
  d_ram_used : number;
  d_disk_free : number;
  d_status : string;
  d_last_seen : string
}.

Record job := mkJob {
  j_id : string;
  j_requester : string;
  j_device_id : string;
  j_filename : string;
  j_lang : string;
  j_code : string;
  j_status : job_status;
  j_cost_usd : option scalar;
  j_stdoutt : string;
  j_stderr : string
}.

Record ledger_entry := mkLedger {
  l_id : string;
  l_job_id : string;
  l_from_user : string;
  l_to_user : string;
  l_amount_cents : number;
  l_created_at : string
}.

Record budget := mkBudget {
  b_user_id : string;
  b_spent_cents : number;
  b_earned_cents : number
}.

Record db := mkDb {
  devices : list device;
  jobs : list job;
  ledger : list ledger_entry;
  budgets : list budget
}.

Definition empty_db : db := mkDb [] [] [] [].

(** ** The store *)

Module Sql.

Section Table.
Context {row : Type}.

(** [SELECT ... WHERE p] with [.first()] *)
Definition first (p : row -> bool) (t : list row) : option row := find p t.

(** [SELECT ... WHERE p] with [.all()] *)
Definition all (p : row -> bool) (t : list row) : list row := filter p t.

(** [UPDATE t SET ... WHERE p] *)
Definition update (p : row -> bool) (set : row -> row) (t : list row)
  : list row :=
  map (fun r => if p r then set r else r) t.

(** [INSERT INTO t VALUES r] *)
Definition insert (r : row) (t : list row) : list row := t ++ [r].
End Table.

End Sql.

Definition with_devices (f : list device -> list device) (s : db) : db :=
  mkDb (f (devices s)) (jobs s) (ledger s) (budgets s).
Definition with_jobs (f : list job -> list job) (s : db) : db :=
  mkDb (devices s) (f (jobs s)) (ledger s) (budgets s).
Definition with_ledger (f : list ledger_entry -> list ledger_entry) (s : db)
  : db :=
  mkDb (devices s) (jobs s) (f (ledger s)) (budgets s).
Definition with_budgets (f : list budget -> list budget) (s : db) : db :=
  mkDb (devices s) (jobs s) (ledger s) (f (budgets s)).

(** ** Handlers: store-passing with early reply *)

Definition handler (A : Type) : Type := db -> (response + A) * db.

Definition ret {A} (a : A) : handler A := fun s => (inr a, s).

Definition bind {A B} (m : handler A) (k : A -> handler B) : handler B :=
  fun s =>
    match m s with
    | (inl r, s') => (inl r, s')
    | (inr a, s') => k a s'
    end.

(** [return c.json(...)] *)
Definition reply {A} (r : response) : handler A := fun s => (inl r, s).

(** A [SELECT]: reads the store. *)
Definition query {A} (q : db -> A) : handler A := fun s => (inr (q s), s).

(** An [INSERT] or [UPDATE] followed by [.run()]. *)
Definition run (w : db -> db) : handler unit := fun s => (inr tt, w s).

Definition when_ (b : bool) (m : handler unit) : handler unit :=
  if b then m else ret tt.

Declare Scope handler_scope.
Delimit Scope handler_scope with handler.
Notation "x <- m ;; k" := (bind m (fun x => k))
  (at level 61, m at next level, right associativity) : handler_scope.
Notation "m ;; k" := (bind m (fun _ => k))
  (at level 61, right associativity) : handler_scope.

Definition serve (h : handler response) (s : db) : response * db :=
  match h s with
  | (inl r, s') => (r, s')
  | (inr r, s') => (r, s')
  end.

(** ** Requests *)

Record heartbeat_req := mkHeartbeat {
  hb_user_id : string;
  hb_url : string;
  hb_cpu_cores : number;
  hb_cpu_load : number;
  hb_ram_total : number;
  hb_ram_used : number;
  hb_disk_free : number;
  hb_status : string
}.

(** [cost_usd] is [None] when the body has no such field ([undefined]). *)
Record submit_req := mkSubmit {
  sj_requester : string;
  sj_device_id : string;
  sj_filename : string;
  sj_lang : string;
  sj_code : string;
  sj_cost_usd : option scalar
}.

Record update_req := mkUpdate {
  uj_job_id : string;
  uj_stdout : option string;
  uj_stderr : option string
}.

(** ** POST /heartbeat *)

Local Open Scope handler_scope.

Definition heartbeat_missing (r : heartbeat_req) : bool :=
  negb (truthy (hb_user_id r)) ||
  negb (truthy (hb_url r)) ||
  negb (truthy (hb_cpu_cores r)) ||
  negb (truthy (hb_cpu_load r)) ||
  negb (truthy (hb_ram_total r)) ||
  negb (truthy (hb_ram_used r)) ||
  negb (truthy (hb_disk_free r)) ||
  negb (truthy (hb_status r)).

Definition device_of (id now : string) (r : heartbeat_req) : device :=
  mkDevice id (hb_user_id r) (hb_url r) (hb_cpu_cores r) (hb_cpu_load r)
           (hb_ram_total r) (hb_ram_used r) (hb_disk_free r) (hb_status r) now.

Definition has_user (u : string) (d : device) : bool :=
  String.eqb (d_user_id d) u.

(** [id] is the value of [Date.now().toString() + Math.random()...] and
    [now] that of [new Date().toISOString()]. *)
Definition heartbeat (id now : string) (r : heartbeat_req) : handler response :=
  if heartbeat_missing r then
    reply (c_json_status (error_body "Missing required fields") 400)
  else
    existingDevice <- query (fun s => Sql.first (has_user (hb_user_id r)) (devices s)) ;;
    match existingDevice with
    | Some _ =>
        run (with_devices
               (Sql.update (has_user (hb_user_id r))
                  (fun d => mkDevice id (d_user_id d) (hb_url r) (hb_cpu_cores r)
                              (hb_cpu_load r) (hb_ram_total r) (hb_ram_used r)
                              (hb_disk_free r) (hb_status r) now)))
    | None =>
        run (with_devices (Sql.insert (device_of id now r)))
    end ;;
    reply (c_json success_body).

(** ** GET /devices *)

Definition device_projection (d : device) : json :=
  JObj [("url", JStr (d_url d));
        ("cpu_cores", JNum (d_cpu_cores d));
        ("cpu_load", JNum (d_cpu_load d));
        ("ram_total", JNum (d_ram_total d));
        ("ram_used", JNum (d_ram_used d));
        ("disk_free", JNum (d_disk_free d));
        ("user_id", JStr (d_user_id d))].

Definition list_devices : handler response :=
  activeDevices <- query (fun s =>
    Sql.all (fun d => String.eqb (d_status d) "ACTIVE") (devices s)) ;;
  reply (c_json (JArr (map device_projection activeDevices))).

(** ** GET /jobs/:user_id *)

(** The columns of [SELECT id, filename, lang, status, stdoutt, stderr]. *)
Definition job_projection (j : job) : json :=
  JObj [("id", JStr (j_id j));
        ("filename", JStr (j_filename j));
        ("lang", JStr (j_lang j));
        ("status", JStr (status_name (j_status j)));
        ("stdoutt", JStr (j_stdoutt j));
        ("stderr", JStr (j_stderr j))].

Definition requested_by (u : string) (j : job) : bool :=
  String.eqb (j_requester j) u.

Definition list_jobs (user_id : string) : handler response :=
  jobs_ <- query (fun s => Sql.all (requested_by user_id) (jobs s)) ;;
  reply (c_json (JArr (map job_projection jobs_))).

(** ** GET /check-for-jobs/:user_id *)

(** [WHERE device_id = ? AND status = 'QUEUED'] *)
Definition queued_for (u : string) (j : job) : bool :=
  String.eqb (j_device_id j) u && job_status_eqb (j_status j) QUEUED.

(** The columns of [SELECT id, lang, code, filename]. *)
Definition claim_projection (j : job) : json :=
  JObj [("id", JStr (j_id j));
        ("lang", JStr (j_lang j));
        ("code", JStr (j_code j));
        ("filename", JStr (j_filename j))].

Definition has_id (id : string) (j : job) : bool := String.eqb (j_id j) id.

Definition set_status (st : job_status) (j : job) : job :=
  mkJob (j_id j) (j_requester j) (j_device_id j) (j_filename j) (j_lang j)
        (j_code j) st (j_cost_usd j) (j_stdoutt j) (j_stderr j).

Definition check_for_jobs (user_id : string) : handler response :=
  queuedJob <- query (fun s => Sql.first (queued_for user_id) (jobs s)) ;;
  match queuedJob with
  | None => reply (c_json (JObj [("job", JNull)]))
  | Some q =>
      run (with_jobs (Sql.update (has_id (j_id q)) (set_status RUNNING))) ;;
      reply (c_json (JObj [("job", claim_projection q)]))
  end.

(** ** POST /submit-job *)

Definition submit_missing (r : submit_req) : bool :=
  negb (truthy (sj_requester r)) ||
  negb (truthy (sj_device_id r)) ||
  negb (truthy (sj_filename r)) ||
  negb (truthy (sj_lang r)) ||
  negb (truthy (sj_code r)) ||
  negb (truthy (sj_cost_usd r)).

Definition lang_ok (lang : string) : bool :=
  String.eqb lang "python" || String.eqb lang "javascript".

(** [cost_usd < 0.01 ? Math.round(cost_usd * 10000) / 100
                     : Math.round(cost_usd * 100)] *)
Definition amountCents (cost_usd : number) : number :=
  if Num.ltb cost_usd Num.cent
  then Num.div (Num.round (Num.mul cost_usd (Num.of_Z 10000))) (Num.of_Z 100)
  else Num.round (Num.mul cost_usd (Num.of_Z 100)).

(** [row?.field || dflt], the field of an optional row with a fallback. *)
Definition field_or (field : option number) (dflt : number) : number :=
  match field with
  | Some n => js_or n dflt
  | None => dflt
  end.

Definition budget_of (u : string) (b : budget) : bool :=
  String.eqb (b_user_id b) u.

Definition set_device_status (st : string) (d : device) : device :=
  mkDevice (d_id d) (d_user_id d) (d_url d) (d_cpu_cores d) (d_cpu_load d)
           (d_ram_total d) (d_ram_used d) (d_disk_free d) st (d_last_seen d).

Definition set_spent (n : number) (b : budget) : budget :=
  mkBudget (b_user_id b) n (b_earned_cents b).

Definition set_earned (n : number) (b : budget) : budget :=
  mkBudget (b_user_id b) (b_spent_cents b) n.

Definition new_job (id : string) (r : submit_req) : job :=
  mkJob id (sj_requester r) (sj_device_id r) (sj_filename r) (sj_lang r)
        (sj_code r) QUEUED (sj_cost_usd r) "" "".

(** [id] and [ledgerId] are the two generated identifiers, and
    [epochTimestamp] the value of [Math.floor(Date.now() / 1000).toString()]. *)
Definition submit_job (id ledgerId epochTimestamp : string) (r : submit_req)
  : handler response :=
  if submit_missing r then
    reply (c_json_status (error_body "Missing required fields") 400)
  else if negb (lang_ok (sj_lang r)) then
    reply (c_json_status
             (error_body "Language must be either 'python' or 'javascript'") 400)
  else
    run (with_jobs (Sql.insert (new_job id r))) ;;
    run (with_devices
           (Sql.update (has_user (sj_device_id r)) (set_device_status "BUSY"))) ;;
    match sj_cost_usd r with
    | Some (SNum cost_usd) =>
      if Num.is_nan cost_usd then
        reply (c_json_status (error_body "Invalid cost_usd value") 400)
      else
        let amount := amountCents cost_usd in
        run (with_ledger
               (Sql.insert (mkLedger ledgerId id (sj_requester r) (sj_device_id r)
                                     amount epochTimestamp))) ;;
        senderBudget <- query (fun s =>
          option_map b_spent_cents
                     (Sql.first (budget_of (sj_requester r)) (budgets s))) ;;
        when_ (negb (truthy senderBudget))
              (run (with_budgets
                      (Sql.insert (mkBudget (sj_requester r) (Num.of_Z 0) (Num.of_Z 0))))) ;;
        run (with_budgets
               (Sql.update (budget_of (sj_requester r))
                  (set_spent (Num.sub (field_or senderBudget (Num.of_Z 0)) amount)))) ;;
        receiverBudget <- query (fun s =>
          option_map b_earned_cents
                     (Sql.first (budget_of (sj_device_id r)) (budgets s))) ;;
        when_ (negb (truthy receiverBudget))
              (run (with_budgets
                      (Sql.insert (mkBudget (sj_device_id r) (Num.of_Z 0) (Num.of_Z 1000))))) ;;
        run (with_budgets
               (Sql.update (budget_of (sj_device_id r))
                  (set_earned (Num.add (field_or receiverBudget (Num.of_Z 1000)) amount)))) ;;
        reply (c_json (JObj [("success", JBool true); ("job_id", JStr id)]))
    | _ => reply (c_json_status (error_body "Invalid cost_usd value") 400)
    end.

(** ** POST /update-job *)

(** [s || ""] for an optional request field. *)
Definition text_or_empty (o : option string) : string :=
  match o with
  | Some s => js_or s ""
  | None => ""
  end.

Definition finish (out err : string) (j : job) : job :=
  mkJob (j_id j) (j_requester j) (j_device_id j) (j_filename j) (j_lang j)
        (j_code j) FINISHED (j_cost_usd j) out err.

(** [WHERE user_id = (SELECT device_id FROM jobs WHERE id = ?)]: the scalar
    subquery is the first matching row's [device_id], or NULL, which equals
    no [user_id]. *)
Definition device_of_job (job_id : string) (s : db) (d : device) : bool :=
  match Sql.first (has_id job_id) (jobs s) with
  | Some j => String.eqb (d_user_id d) (j_device_id j)
  | None => false
  end.

Definition update_job (r : update_req) : handler response :=
  if negb (truthy (uj_job_id r)) then
    reply (c_json_status (error_body "Missing job_id") 400)
  else
    run (with_jobs
           (Sql.update (has_id (uj_job_id r))
              (finish (text_or_empty (uj_stdout r)) (text_or_empty (uj_stderr r))))) ;;
    run (fun s =>
           with_devices
             (Sql.update (device_of_job (uj_job_id r) s) (set_device_status "ACTIVE"))
             s) ;;
    reply (c_json success_body).

(** ** GET /get-budget/:user_id *)

(** The columns of [SELECT spent_cents, earned_cents]. *)
Definition budget_projection (b : budget) : json :=
  JObj [("spent_cents", JNum (b_spent_cents b));
        ("earned_cents", JNum (b_earned_cents b))].

Definition get_budget (user_id : string) : handler response :=
  budget_ <- query (fun s => Sql.first (budget_of user_id) (budgets s)) ;;
  match budget_ with
  | None =>
      reply (c_json (JObj [("spent_cents", JNum (Num.of_Z 0));
                           ("earned_cents", JNum (Num.of_Z 1000))]))
  | Some b => reply (c_json (budget_projection b))
  end.

Local Close Scope handler_scope.

(** ** Operations and traces *)

Inductive op :=
| Heartbeat (id now : string) (r : heartbeat_req)
| ListActiveDevices
| ListJobsForUser (user_id : string)
| CheckForJobs (user_id : string)
| SubmitJob (id ledgerId epochTimestamp : string) (r : submit_req)
| UpdateJob (r : update_req)
| GetBudget (user_id : string).

Definition handle (o : op) : handler response :=
  match o with
  | Heartbeat id now r => heartbeat id now r
  | ListActiveDevices => list_devices
  | ListJobsForUser u => list_jobs u
  | CheckForJobs u => check_for_jobs u
  | SubmitJob id lid ts r => submit_job id lid ts r
  | UpdateJob r => update_job r
  | GetBudget u => get_budget u
  end.

Definition step (o : op) (s : db) : response * db := serve (handle o) s.

Definition exec (o : op) (s : db) : db := snd (step o s).

(** The store after a sequence of requests, served one after the other. *)
Definition exec_all (ops : list op) (s : db) : db :=
  fold_left (fun st o => exec o st) ops s.

Definition succeeded (o : op) (s : db) : bool :=
  Z.eqb (status_code (fst (step o s))) 200.

(** Every request of the sequence is answered with status 200. *)
Fixpoint all_succeed (ops : list op) (s : db) : bool :=
  match ops with
  | [] => true
  | o :: rest => succeeded o s && all_succeed rest (exec o s)
  end.

(** ** Specification vocabulary *)

(** Position of a status in the life cycle. *)
Definition rank (st : job_status) : nat :=
  match st with
  | QUEUED => 0
  | RUNNING => 1
  | FINISHED => 2
  end.

(** One forward move of the life cycle: stay, or go to the next state. *)
Definition forward_move (a b : job_status) : Prop :=
  a = b \/ (a = QUEUED /\ b = RUNNING) \/ (a = RUNNING /\ b = FINISHED).

(** [o] moves every job of [s] by at most one state forward. *)
Definition forward_only (o : op) (s : db) : Prop :=
  forall i j j',
    nth_error (jobs s) i = Some j ->
    nth_error (jobs (exec o s)) i = Some j' ->
    forward_move (j_status j) (j_status j').

(** The job waits for the device of user [u]. *)
Definition is_queued_for (u : string) (j : job) : Prop :=
  j_device_id j = u /\ j_status j = QUEUED.

Definition unique_device_users (s : db) : Prop :=
  NoDup (map d_user_id (devices s)).

Definition unique_job_ids (s : db) : Prop :=
  NoDup (map j_id (jobs s)).

(** Job ids are unique before each request of the sequence and after the
    last: the generated ids never repeat. *)
Fixpoint ids_unique_along (ops : list op) (s : db) : Prop :=
  unique_job_ids s /\
  match ops with
  | [] => True
  | o :: rest => ids_unique_along rest (exec o s)
  end.

Definition unique_budget_users (s : db) : Prop :=
  NoDup (map b_user_id (budgets s)).

(** Total of the ledger entries charged to [u], and of those paid to [u]. *)
Definition sent_total (u : string) (s : db) : number :=
  Num.sum (map l_amount_cents
               (filter (fun e => String.eqb (l_from_user e) u) (ledger s))).

Definition received_total (u : string) (s : db) : number :=
  Num.sum (map l_amount_cents
               (filter (fun e => String.eqb (l_to_user e) u) (ledger s))).

(** The budget row of [u] is in step with the ledger, for a row that was
    created with [baseline] earned cents. *)
Definition budget_consistent (baseline : number) (u : string) (s : db) : Prop :=
  exists b,
    Sql.first (budget_of u) (budgets s) = Some b /\
    b_spent_cents b = Num.neg (sent_total u s) /\
    b_earned_cents b = Num.add baseline (received_total u s).

Definition is_heartbeat (o : op) : bool :=
  match o with
  | Heartbeat _ _ _ => true
  | _ => false
  end.

Definition is_not_found (r : response) : Prop := status_code r = 404%Z.

(** The response keys the interface description gives for a listed job. *)
Definition documented_job_keys : list string :=
  ["id"; "filename"; "lang"; "status"; "stdout"; "stderr"].

(** What the earned-cents update of a submission starts from: the stored
    value of the receiver's row unless it is missing or zero, else 1000. *)
Definition earned_before (u : string) (bs : list budget) : number :=
  field_or (option_map b_earned_cents (Sql.first (budget_of u) bs)) (Num.of_Z 1000).

Definition spent_before (u : string) (bs : list budget) : number :=
  field_or (option_map b_spent_cents (Sql.first (budget_of u) bs)) (Num.of_Z 0).

(** The budget writes of a submission, in the order of the handler. *)
Definition charge_sender (u : string) (amount : number) (bs : list budget)
  : list budget :=
  let prior := option_map b_spent_cents (Sql.first (budget_of u) bs) in
  Sql.update (budget_of u)
    (set_spent (Num.sub (field_or prior (Num.of_Z 0)) amount))
    (if truthy prior then bs else Sql.insert (mkBudget u (Num.of_Z 0) (Num.of_Z 0)) bs).

Definition credit_receiver (u : string) (amount : number) (bs : list budget)
  : list budget :=
  let prior := option_map b_earned_cents (Sql.first (budget_of u) bs) in
  Sql.update (budget_of u)
    (set_earned (Num.add (field_or prior (Num.of_Z 1000)) amount))
    (if truthy prior then bs else Sql.insert (mkBudget u (Num.of_Z 0) (Num.of_Z 1000)) bs).

(** The store after a submission that passes every check. *)
Definition submitted (id ledgerId epochTimestamp : string) (r : submit_req)
           (amount : number) (s : db) : db :=
  mkDb (Sql.update (has_user (sj_device_id r)) (set_device_status "BUSY") (devices s))
       (Sql.insert (new_job id r) (jobs s))
       (Sql.insert (mkLedger ledgerId id (sj_requester r) (sj_device_id r)
                             amount epochTimestamp) (ledger s))
       (credit_receiver (sj_device_id r) amount
          (charge_sender (sj_requester r) amount (budgets s))).

(** The store after a submission that is turned down for its [cost_usd]. *)
Definition half_submitted (id : string) (r : submit_req) (s : db) : db :=
  mkDb (Sql.update (has_user (sj_device_id r)) (set_device_status "BUSY") (devices s))
       (Sql.insert (new_job id r) (jobs s))
       (ledger s)
       (budgets s).

(** The items of a response whose body is an array. *)
Definition listed_items (r : response) : list json :=
  match body r with
  | JArr items => items
  | _ => []
  end.

(** ** Sample data *)

Module Sample.

Definition n (z : Z) : number := Num.of_Z z.

Definition laptop : heartbeat_req :=
  mkHeartbeat "bob" "https://bob.example" (n 8) (n 1) (n 16) (n 4) (n 100) "ACTIVE".

Definition laptop_later : heartbeat_req :=
  mkHeartbeat "bob" "https://bob2.example" (n 4) (n 2) (n 8) (n 3) (n 50) "ACTIVE".

Definition alice_to_bob : submit_req :=
  mkSubmit "alice" "bob" "main.py" "python" "print(1)" (Some (SNum (n 1))).

Definition bob_to_alice : submit_req :=
  mkSubmit "bob" "alice" "main.js" "javascript" "1+1" (Some (SNum (n 1))).

Definition half_cent : submit_req :=
  mkSubmit "alice" "bob" "main.py" "python" "print(1)"
           (Some (SNum Num.lit_0_005)).

Definition bad_cost : submit_req :=
  mkSubmit "alice" "bob" "main.py" "python" "print(1)" (Some (SStr "abc")).

Definition registered : db := exec (Heartbeat "d1" "t0" laptop) empty_db.

Definition one_queued : db :=
  exec (SubmitJob "j1" "l1" "100" alice_to_bob) registered.

End Sample.

(** ** Middleware *)

(** What a middleware hands back: the headers it set, and either the
    response it returned itself or the outcome of [next()]. *)
Inductive passed (A : Type) :=
| Stopped (status : Z) (text : option string) (headers : list (string * string))
| Continued (headers : list (string * string)) (result : A).
Arguments Stopped {A} status text headers.
Arguments Continued {A} headers result.

Definition allowedOrigins : list string :=
  ["http://localhost:5173"; "https://www.nerdnarcan.com"].

(** [allowedOrigins.includes(origin)], the header being absent when
    [origin] is [None]. *)
Definition includes (l : list string) (origin : option string) : bool :=
  match origin with
  | Some o => existsb (String.eqb o) l
  | None => false
  end.

(** [allowedOrigins.includes(origin) ? origin : allowedOrigins[0]] *)
Definition allow_origin (origin : option string) : string :=
  match origin with
  | Some o => if includes allowedOrigins origin then o else hd "" allowedOrigins
  | None => hd "" allowedOrigins
  end.

Definition corsHeaders (origin : option string) : list (string * string) :=
  [("Access-Control-Allow-Origin", allow_origin origin);
   ("Access-Control-Allow-Methods", "GET, POST, PUT, DELETE, OPTIONS");
   ("Access-Control-Allow-Headers", "Authorization, User-ID, Content-Type, Api-Key");
   ("Access-Control-Max-Age", "86400")].

(** [method] is [c.req.method], [origin] the Origin header and [next] the
    rest of the chain. *)
Definition corsMiddleware {A} (method : string) (origin : option string)
           (next : db -> A * db) (s : db) : passed A * db :=
  if String.eqb method "OPTIONS"
  then (Stopped 204 None (corsHeaders origin), s)
  else let (a, s') := next s in (Continued (corsHeaders origin) a, s').

(** [apiKey !== c.env.ADMIN_API_KEY] on two values that are a string or
    [undefined]. *)
Definition key_differs (apiKey adminKey : option string) : bool :=
  match apiKey, adminKey with
  | Some a, Some b => negb (String.eqb a b)
  | None, None => false
  | _, _ => true
  end.

(** [apiKey] is the Api-Key header and [adminKey] the binding
    [ADMIN_API_KEY], each absent when [None]. *)
Definition validateAdminRequest {A} (method : string)
           (apiKey adminKey : option string)
           (next : db -> A * db) (s : db) : passed A * db :=
  if String.eqb method "OPTIONS"
  then let (a, s') := next s in (Continued [] a, s')
  else if key_differs apiKey adminKey
       then (Stopped 403 (Some "Unauthorized") [], s)
       else let (a, s') := next s in (Continued [] a, s').

(** The header a middleware outcome carries under a name. *)
Definition header_of {A} (name : string) (p : passed A) : option string :=
  let headers := match p with
                 | Stopped _ _ h => h
                 | Continued h _ => h
                 end in
  option_map snd (find (fun kv => String.eqb (fst kv) name) headers).

(** ** More specification vocabulary *)

(** The id of the job a poll hands out, if it hands one out. *)
Definition polled_id (r : response) : option string :=
  match body r with
  | JObj [("job", JObj (("id", JStr i) :: _))] => Some i
  | _ => None
  end.

(** What a submission fixes of a job for good. *)
Definition payload (j : job)
  : string * string * string * string * string * string * option scalar :=
  (j_id j, j_requester j, j_device_id j, j_filename j, j_lang j, j_code j,
   j_cost_usd j).

(** Every ledger entry belongs to a job of the table, from its requester to
    its device. *)
Definition ledger_backed (s : db) : Prop :=
  forall e, In e (ledger s) ->
    exists j, In j (jobs s) /\ j_id j = l_job_id e /\
              j_requester j = l_from_user e /\ j_device_id j = l_to_user e.

Definition has_budget_row (u : string) (s : db) : Prop :=
  exists b, In b (budgets s) /\ b_user_id b = u.

(** Both parties of every ledger entry have a budget row. *)
Definition parties_have_rows (s : db) : Prop :=
  forall e, In e (ledger s) ->
    has_budget_row (l_from_user e) s /\ has_budget_row (l_to_user e) s.

(** The budget row a user has, when there is one. *)
Definition stored (u : string) (bs : list budget) : option budget :=
  find (fun b => if string_dec (b_user_id b) u then true else false) bs.

(** A number that counts as missing: a zero of either sign, or NaN. *)
Definition falsy_number (x : number) : Prop :=
  PrimFloat.eqb x 0%float = true \/ PrimFloat.is_nan x = true.

(** A heartbeat field that the handler takes for missing. *)
Definition heartbeat_falsy (r : heartbeat_req) : Prop :=
  hb_user_id r = "" \/ hb_url r = "" \/
  falsy_number (hb_cpu_cores r) \/ falsy_number (hb_cpu_load r) \/
  falsy_number (hb_ram_total r) \/ falsy_number (hb_ram_used r) \/
  falsy_number (hb_disk_free r) \/ hb_status r = "".

(** A submission that the handler turns down before it writes. *)
Definition submit_unacceptable (r : submit_req) : Prop :=
  sj_requester r = "" \/ sj_device_id r = "" \/ sj_filename r = "" \/
  sj_lang r = "" \/ sj_code r = "" \/ sj_cost_usd r = None \/
  (sj_lang r <> "python" /\ sj_lang r <> "javascript").

(** More sample data. *)
Module Cases.

Definition idle_load : heartbeat_req :=
  mkHeartbeat "bob" "https://bob.example" (Num.of_Z 8) (Num.of_Z 0)
              (Num.of_Z 16) (Num.of_Z 4) (Num.of_Z 100) "ACTIVE".

Definition ruby : submit_req :=
  mkSubmit "alice" "bob" "main.rb" "ruby" "puts 1" (Some (SNum (Num.of_Z 1))).

Definition report : update_req := mkUpdate "j1" (Some "1") None.

End Cases.

(** * Properties *)

(** ** The handlers as store transformers *)

Section SubmitAccepted.

Variables (id ledgerId epochTimestamp : string) (r : submit_req).
Hypothesis fields_present : submit_missing r = false.
Hypothesis language_known : lang_ok (sj_lang r) = true.

Lemma submit_job_number (cost_usd : number) (s : db) :
  sj_cost_usd r = Some (SNum cost_usd) ->
  Num.is_nan cost_usd = false ->
  step (SubmitJob id ledgerId epochTimestamp r) s =
  (c_json (JObj [("success", JBool true); ("job_id", JStr id)]),
   submitted id ledgerId epochTimestamp r (amountCents cost_usd) s).
Proof.
  intros Hcost Hnan.
  unfold step, serve, handle, submit_job.
  rewrite fields_present, language_known, Hcost. simpl. rewrite Hnan.
  unfold bind, run, query, when_, reply, ret. simpl.
  unfold submitted, charge_sender, credit_receiver. simpl.
  destruct (Sql.first (budget_of (sj_requester r)) (budgets s)) as [b|]; simpl.
  - match goal with
    | |- context [Sql.first (budget_of (sj_device_id r)) ?t] =>
        destruct (Sql.first (budget_of (sj_device_id r)) t)
    end; reflexivity.
  - match goal with
    | |- context [Sql.first (budget_of (sj_device_id r)) ?t] =>
        destruct (Sql.first (budget_of (sj_device_id r)) t)
    end; reflexivity.
Qed.

Lemma submit_job_not_number (v : scalar) (s : db) :
  sj_cost_usd r = Some v ->
  (forall c, v <> SNum c) ->
  step (SubmitJob id ledgerId epochTimestamp r) s =
  (c_json_status (error_body "Invalid cost_usd value") 400,
   half_submitted id r s).
Proof.
  intros Hcost Hv.
  unfold step, serve, handle, submit_job.
  rewrite fields_present, language_known, Hcost. simpl.
  destruct v as [|c|t]; try reflexivity.
  exfalso. exact (Hv c eq_refl).
Qed.

Lemma submit_job_nan (cost_usd : number) (s : db) :
  sj_cost_usd r = Some (SNum cost_usd) ->
  Num.is_nan cost_usd = true ->
  step (SubmitJob id ledgerId epochTimestamp r) s =
  (c_json_status (error_body "Invalid cost_usd value") 400,
   half_submitted id r s).
Proof.
  intros Hcost Hnan.
  unfold step, serve, handle, submit_job.
  rewrite fields_present, language_known, Hcost. simpl. now rewrite Hnan.
Qed.

End SubmitAccepted.


(** ** Facts about the table operations *)

Section SqlFacts.

Context {row : Type}.
Implicit Types (p q : row -> bool) (f : row -> row) (t : list row).

Lemma first_none p t :
  Sql.first p t = None <-> (forall r, In r t -> p r = false).
Proof.
  unfold Sql.first. split.
  - intros H r Hin. exact (find_none p t H r Hin).
  - induction t as [|x t IH]; simpl; intros H; [reflexivity|].
    rewrite (H x (or_introl eq_refl)). apply IH. intros r Hr. apply H. now right.
Qed.

Lemma first_some p t r :
  Sql.first p t = Some r -> In r t /\ p r = true.
Proof. unfold Sql.first. apply find_some. Qed.

(** The first match splits the table: nothing before it matches. *)
Lemma first_split p t r :
  Sql.first p t = Some r ->
  exists pre post,
    t = pre ++ r :: post /\ (forall x, In x pre -> p x = false) /\ p r = true.
Proof.
  unfold Sql.first. induction t as [|x t IH]; simpl; [discriminate|].
  destruct (p x) eqn:Hx.
  - intros [= ->]. exists [], t. repeat split; [intros y []|assumption].
  - intros H. destruct (IH H) as (pre & post & -> & Hpre & Hr).
    exists (x :: pre), post. repeat split; [|assumption].
    intros y [<-|Hy]; [assumption|now apply Hpre].
Qed.

Lemma first_of_split p pre r post :
  (forall x, In x pre -> p x = false) -> p r = true ->
  Sql.first p (pre ++ r :: post) = Some r.
Proof.
  unfold Sql.first. induction pre as [|x pre IH]; simpl; intros Hpre Hr.
  - now rewrite Hr.
  - rewrite (Hpre x (or_introl eq_refl)). apply IH; [|assumption].
    intros y Hy. apply Hpre. now right.
Qed.

Lemma update_no_match p f t :
  (forall r, In r t -> p r = false) -> Sql.update p f t = t.
Proof.
  unfold Sql.update. induction t as [|x t IH]; simpl; intros H; [reflexivity|].
  rewrite (H x (or_introl eq_refl)). f_equal. apply IH.
  intros r Hr. apply H. now right.
Qed.

Lemma update_app p f t1 t2 :
  Sql.update p f (t1 ++ t2) = Sql.update p f t1 ++ Sql.update p f t2.
Proof. unfold Sql.update. apply map_app. Qed.

Lemma update_length p f t :
  List.length (Sql.update p f t) = List.length t.
Proof. unfold Sql.update. apply length_map. Qed.

Lemma update_nth p f t i :
  nth_error (Sql.update p f t) i =
  option_map (fun r => if p r then f r else r) (nth_error t i).
Proof. unfold Sql.update. apply nth_error_map. Qed.

(** An update that leaves a column alone leaves that column of the table
    alone. *)
Lemma update_column {K} (col : row -> K) p f t :
  (forall r, col (f r) = col r) ->
  map col (Sql.update p f t) = map col t.
Proof.
  intros Hcol. unfold Sql.update. rewrite map_map. apply map_ext.
  intros r. destruct (p r); [apply Hcol|reflexivity].
Qed.

(** Looking up by [q] after an update that does not change what [q] sees. *)
Lemma first_update q p f t :
  (forall r, q (f r) = q r) ->
  Sql.first q (Sql.update p f t) =
  option_map (fun r => if p r then f r else r) (Sql.first q t).
Proof.
  intros Hq. unfold Sql.first, Sql.update.
  induction t as [|x t IH]; simpl; [reflexivity|].
  assert (Hx : q (if p x then f x else x) = q x) by (destruct (p x); auto).
  rewrite Hx. destruct (q x); [reflexivity|apply IH].
Qed.

Lemma first_insert q r t :
  Sql.first q (Sql.insert r t) =
  match Sql.first q t with
  | Some x => Some x
  | None => if q r then Some r else None
  end.
Proof.
  unfold Sql.first, Sql.insert. induction t as [|x t IH]; simpl.
  - reflexivity.
  - destruct (q x); [reflexivity|apply IH].
Qed.

Lemma all_update_other q p f t :
  (forall r, q (f r) = q r) ->
  (forall r, q r = true -> p r = false) ->
  Sql.all q (Sql.update p f t) = Sql.all q t.
Proof.
  intros Hq Hdisj. unfold Sql.all, Sql.update.
  induction t as [|x t IH]; simpl; [reflexivity|].
  destruct (p x) eqn:Hp.
  - rewrite Hq. destruct (q x) eqn:Hqx.
    + rewrite (Hdisj x Hqx) in Hp. discriminate.
    + apply IH.
  - destruct (q x); [f_equal|]; apply IH.
Qed.

Lemma all_insert q r t :
  Sql.all q (Sql.insert r t) = Sql.all q t ++ (if q r then [r] else []).
Proof.
  unfold Sql.all, Sql.insert. rewrite filter_app. simpl.
  destruct (q r); reflexivity.
Qed.

Lemma all_none q t :
  (forall r, In r t -> q r = false) -> Sql.all q t = [].
Proof.
  unfold Sql.all. induction t as [|x t IH]; simpl; intros H; [reflexivity|].
  rewrite (H x (or_introl eq_refl)). apply IH. intros r Hr. apply H. now right.
Qed.

End SqlFacts.

(** ** Budget query *)

Lemma budget_of_iff (u : string) (b : budget) :
  budget_of u b = true <-> b_user_id b = u.
Proof. unfold budget_of. apply String.eqb_eq. Qed.

(** With one row per user, the first row of a user is the row of that user. *)
Lemma first_budget_unique (u : string) (b : budget) (s : db) :
  unique_budget_users s -> In b (budgets s) -> b_user_id b = u ->
  Sql.first (budget_of u) (budgets s) = Some b.
Proof.
  unfold unique_budget_users. intros Huniq Hin Hu.
  destruct (in_split _ _ Hin) as (pre & post & Heq).
  rewrite Heq in *. apply first_of_split.
  - intros x Hx. destruct (budget_of u x) eqn:E; [|reflexivity].
    apply budget_of_iff in E. exfalso.
    rewrite map_app in Huniq. simpl in Huniq.
    apply NoDup_remove_2 in Huniq. apply Huniq.
    apply in_or_app. left. rewrite Hu, <- E. now apply in_map.
  - now apply budget_of_iff.
Qed.

(** C7: GetBudget answers with the stored pair of the user's budget row, or
    with exactly spent 0 and earned 1000 when the user has no row, and it
    leaves every table as it was. *)
Theorem get_budget_reads_stored_or_default (u : string) (s : db) :
  exec (GetBudget u) s = s /\
  ((forall b, In b (budgets s) -> b_user_id b <> u) ->
   fst (step (GetBudget u) s) =
   c_json (JObj [("spent_cents", JNum (Num.of_Z 0));
                 ("earned_cents", JNum (Num.of_Z 1000))])) /\
  (forall b, unique_budget_users s -> In b (budgets s) -> b_user_id b = u ->
   fst (step (GetBudget u) s) =
   c_json (JObj [("spent_cents", JNum (b_spent_cents b));
                 ("earned_cents", JNum (b_earned_cents b))])).
Proof.
  unfold exec, step, serve, handle, get_budget, bind, query, reply.
  split; [|split].
  - destruct (Sql.first (budget_of u) (budgets s)); reflexivity.
  - intros Hnone.
    assert (H : Sql.first (budget_of u) (budgets s) = None).
    { apply first_none. intros b Hb. destruct (budget_of u b) eqn:E; [|reflexivity].
      apply budget_of_iff in E. now destruct (Hnone b Hb). }
    now rewrite H.
  - intros b Huniq Hin Hu.
    now rewrite (first_budget_unique u b s Huniq Hin Hu).
Qed.

Lemma get_budget_reads_stored_or_default_witness :
  fst (step (GetBudget "bob") Sample.one_queued) =
  c_json (JObj [("spent_cents", JNum (Num.of_Z 0));
                ("earned_cents", JNum (Num.add (Num.of_Z 1000) (Num.of_Z 100)))]).
Proof.
  apply (proj2 (proj2 (get_budget_reads_stored_or_default "bob" Sample.one_queued))
               (mkBudget "bob" (Num.of_Z 0) (Num.add (Num.of_Z 1000) (Num.of_Z 100)))).
  - unfold unique_budget_users. simpl.
    repeat constructor; simpl; intuition discriminate.
  - simpl. right. left. reflexivity.
  - reflexivity.
Defined.

(** ** Job listing *)

(** C9, as stated, fails: the one job alice has submitted is listed under
    the keys of the selected columns, and the captured output is under
    [stdoutt], not [stdout]. *)
Lemma list_jobs_documented_keys_counterexample :
  ~ (forall item,
        In item (listed_items (fst (step (ListJobsForUser "alice") Sample.one_queued))) ->
        keys item = documented_job_keys).
Proof.
  intros H.
  specialize (H (job_projection (new_job "j1" Sample.alice_to_bob)) (or_introl eq_refl)).
  discriminate H.
Qed.

(** C9, amended: ListJobsForUser answers with the jobs whose requester is the
    given user and no others, in table order, each as an object with the
    fields id, filename, lang, status, stdoutt and stderr of the job; the
    store is left as it was. *)
Theorem list_jobs_projects_requester_jobs (u : string) (s : db) :
  exists rows,
    step (ListJobsForUser u) s = (c_json (JArr (map job_projection rows)), s) /\
    (forall j, In j rows <-> In j (jobs s) /\ j_requester j = u) /\
    (forall j, In j rows ->
       job_projection j =
       JObj [("id", JStr (j_id j)); ("filename", JStr (j_filename j));
             ("lang", JStr (j_lang j)); ("status", JStr (status_name (j_status j)));
             ("stdoutt", JStr (j_stdoutt j)); ("stderr", JStr (j_stderr j))] /\
       keys (job_projection j) =
       ["id"; "filename"; "lang"; "status"; "stdoutt"; "stderr"]).
Proof.
  exists (Sql.all (requested_by u) (jobs s)). split; [reflexivity|]. split.
  - intros j. unfold Sql.all. rewrite filter_In. unfold requested_by.
    now rewrite String.eqb_eq.
  - intros j _. split; reflexivity.
Qed.

(** ** Result reports *)

Lemma has_id_iff (id : string) (j : job) : has_id id j = true <-> j_id j = id.
Proof. unfold has_id. apply String.eqb_eq. Qed.

Lemma no_job_with_id (id : string) (s : db) :
  (forall j, In j (jobs s) -> j_id j <> id) ->
  forall j, In j (jobs s) -> has_id id j = false.
Proof.
  intros H j Hj. destruct (has_id id j) eqn:E; [|reflexivity].
  apply has_id_iff in E. now destruct (H j Hj).
Qed.

(** C5, as stated, fails: a report for a job id that no row has is answered
    with status 200, not with a NotFound. *)
Lemma update_job_unknown_id_counterexample :
  (forall j, In j (jobs Sample.one_queued) -> j_id j <> "nope") /\
  ~ is_not_found (fst (step (UpdateJob (mkUpdate "nope" (Some "out") None))
                            Sample.one_queued)).
Proof.
  split.
  - intros j [<-|[]]. discriminate.
  - unfold is_not_found. simpl. discriminate.
Qed.

(** C5, amended: UpdateJob with a job id that no job row has changes no row
    of any table, and the caller is answered with the success response
    (status 200, success true); an empty job id is turned down with
    status 400. *)
Theorem update_job_unknown_id_changes_nothing (r : update_req) (s : db) :
  (forall j, In j (jobs s) -> j_id j <> uj_job_id r) ->
  step (UpdateJob r) s =
  (if truthy (uj_job_id r)
   then c_json success_body
   else c_json_status (error_body "Missing job_id") 400,
   s).
Proof.
  intros Hnone. pose proof (no_job_with_id _ _ Hnone) as Hfalse.
  unfold step, serve, handle, update_job.
  destruct (truthy (uj_job_id r)); simpl; [|reflexivity].
  unfold bind, run, reply, with_jobs, with_devices. simpl.
  rewrite (update_no_match _ _ (jobs s) Hfalse).
  unfold device_of_job. simpl.
  assert (Hfirst : Sql.first (has_id (uj_job_id r)) (jobs s) = None)
    by (now apply first_none).
  rewrite Hfirst.
  rewrite (update_no_match _ _ (devices s)) by reflexivity.
  destruct s; reflexivity.
Qed.

Lemma update_job_unknown_id_changes_nothing_witness :
  step (UpdateJob (mkUpdate "nope" (Some "out") None)) Sample.one_queued =
  (c_json success_body, Sample.one_queued).
Proof.
  apply (update_job_unknown_id_changes_nothing
           (mkUpdate "nope" (Some "out") None) Sample.one_queued).
  intros j [<-|[]]. simpl. discriminate.
Defined.

(** ** Submission: the late cost check *)

(** C2: a submission whose [cost_usd] is the string abc is turned down with
    status 400 after the job row is written: the job stays QUEUED, the
    device stays BUSY, and there is no ledger entry and no budget row. *)
Theorem submit_job_bad_cost_keeps_queued_job :
  step (SubmitJob "j1" "l1" "100" Sample.bad_cost) Sample.registered =
  (c_json_status (error_body "Invalid cost_usd value") 400,
   mkDb [set_device_status "BUSY" (device_of "d1" "t0" Sample.laptop)]
        [new_job "j1" Sample.bad_cost]
        []
        []) /\
  j_status (new_job "j1" Sample.bad_cost) = QUEUED /\
  Sample.registered =
  mkDb [device_of "d1" "t0" Sample.laptop] [] [] [].
Proof. repeat split. Qed.

(** ** Numbers: rounding and the cost conversion *)

(** [Math.round] at a few inputs: a tie goes up, also below zero, a
    negative number that rounds to zero keeps its sign, and what is not
    finite comes back as it is. *)
Lemma round_examples :
  Num.round 2.5%float = 3%float /\
  Num.round (-2.5)%float = (-2)%float /\
  Num.round 0.5%float = 1%float /\
  Num.round (-0.5)%float = PrimFloat.neg_zero /\
  Num.round 1.25%float = 1%float /\
  Num.round 50%float = 50%float /\
  Num.round 4503599627370495.5%float = 4503599627370496%float /\
  Num.round PrimFloat.infinity = PrimFloat.infinity.
Proof. repeat split; vm_compute; reflexivity. Qed.

Lemma of_Z_literals :
  Num.of_Z 0 = 0%float /\ Num.of_Z 100 = 100%float /\
  Num.of_Z 1000 = 1000%float /\ Num.of_Z 10000 = 10000%float /\
  Num.of_Z (-100) = (-100)%float.
Proof. repeat split; vm_compute; reflexivity. Qed.

(** ** Submission: what is written *)

Section Submitted.

Variables (id ledgerId epochTimestamp : string) (r : submit_req).
Variable cost_usd : number.
Hypothesis fields_present : submit_missing r = false.
Hypothesis language_known : lang_ok (sj_lang r) = true.
Hypothesis cost_is_number : sj_cost_usd r = Some (SNum cost_usd).
Hypothesis cost_not_nan : Num.is_nan cost_usd = false.

Lemma exec_submit (s : db) :
  exec (SubmitJob id ledgerId epochTimestamp r) s =
  submitted id ledgerId epochTimestamp r (amountCents cost_usd) s.
Proof.
  unfold exec.
  now rewrite (submit_job_number id ledgerId epochTimestamp r
                 fields_present language_known cost_usd s cost_is_number
                 cost_not_nan).
Qed.

Lemma submit_appends_ledger (s : db) :
  ledger (exec (SubmitJob id ledgerId epochTimestamp r) s) =
  ledger s ++ [mkLedger ledgerId id (sj_requester r) (sj_device_id r)
                        (amountCents cost_usd) epochTimestamp].
Proof. rewrite exec_submit. reflexivity. Qed.

End Submitted.

(** C6, as stated, fails: for a cost of 0.005 dollars the amount written to
    the ledger is 0.5, which is not a whole number of cents. *)
Lemma half_cent_amount_counterexample :
  exists e,
    ledger (exec (SubmitJob "j1" "l1" "100" Sample.half_cent) Sample.registered) = [e] /\
    l_amount_cents e = 0.5%float /\
    Num.is_integer (l_amount_cents e) = false.
Proof.
  eexists. split; [reflexivity|]. split; vm_compute; reflexivity.
Qed.

(** C6, amended: the amount a submission writes to the ledger is
    Math.round(cost_usd * 100) when cost_usd < 0.01 is false and
    Math.round(cost_usd * 10000) / 100 when it is true, each operation in
    binary64; it is written as computed and need not be a whole number: a
    cost of 0.005 gives 0.5, 0.015 gives 2, 1.005 gives 100, 0.0007 gives
    0.07 and 1e308 gives Infinity. *)
Theorem submit_job_amount_cents
        (id ledgerId epochTimestamp : string) (r : submit_req)
        (cost_usd : number) (s : db) :
  submit_missing r = false ->
  lang_ok (sj_lang r) = true ->
  sj_cost_usd r = Some (SNum cost_usd) ->
  Num.is_nan cost_usd = false ->
  exists e,
    ledger (exec (SubmitJob id ledgerId epochTimestamp r) s) = ledger s ++ [e] /\
    (PrimFloat.ltb cost_usd Num.cent = false ->
     l_amount_cents e = Num.round (PrimFloat.mul cost_usd 100%float)) /\
    (PrimFloat.ltb cost_usd Num.cent = true ->
     l_amount_cents e =
     PrimFloat.div (Num.round (PrimFloat.mul cost_usd 10000%float)) 100%float) /\
    (cost_usd = Num.lit_0_005 -> l_amount_cents e = 0.5%float) /\
    (cost_usd = Num.lit_0_015 -> l_amount_cents e = 2%float) /\
    (cost_usd = Num.lit_1_005 -> l_amount_cents e = 100%float) /\
    (cost_usd = Num.lit_0_0007 -> l_amount_cents e = Num.lit_0_07) /\
    (cost_usd = Num.lit_1e308 -> l_amount_cents e = PrimFloat.infinity).
Proof.
  intros Hfields Hlang Hcost Hnan.
  eexists. split.
  - apply (submit_appends_ledger id ledgerId epochTimestamp r cost_usd
             Hfields Hlang Hcost Hnan s).
  - cbn [l_amount_cents]. unfold amountCents, Num.ltb, Num.mul, Num.div.
    destruct of_Z_literals as (_ & -> & _ & -> & _).
    split; [intros ->; reflexivity|].
    split; [intros ->; reflexivity|].
    repeat split; intros ->; vm_compute; reflexivity.
Qed.

Lemma submit_job_amount_cents_witness :
  exists e,
    ledger (exec (SubmitJob "j1" "l1" "100" Sample.alice_to_bob) Sample.registered)
    = ledger Sample.registered ++ [e] /\
    l_amount_cents e = Num.round (PrimFloat.mul (Num.of_Z 1) 100%float).
Proof.
  destruct (submit_job_amount_cents "j1" "l1" "100" Sample.alice_to_bob
              (Num.of_Z 1) Sample.registered eq_refl eq_refl eq_refl eq_refl)
    as (e & Hledger & Hcents & _).
  exists e. split; [exact Hledger|].
  apply Hcents. vm_compute. reflexivity.
Defined.

(** ** Budget rows after a submission *)

Lemma budget_of_refl (u : string) (spent earned : number) :
  budget_of u (mkBudget u spent earned) = true.
Proof. unfold budget_of. simpl. apply String.eqb_refl. Qed.

Lemma budget_of_other (u v : string) (b : budget) :
  v <> u -> budget_of v b = true -> budget_of u b = false.
Proof.
  intros Hne Hv. apply budget_of_iff in Hv.
  unfold budget_of. apply String.eqb_neq. congruence.
Qed.

Section BudgetWrites.

Variables (u : string) (amount : number) (bs : list budget).

Lemma charge_sender_row :
  exists b,
    Sql.first (budget_of u) (charge_sender u amount bs) = Some b /\
    b_spent_cents b = Num.sub (spent_before u bs) amount /\
    earned_before u (charge_sender u amount bs) = earned_before u bs.
Proof.
  unfold charge_sender, spent_before, earned_before.
  destruct (Sql.first (budget_of u) bs) as [b0|] eqn:E; simpl.
  - destruct (first_some _ _ _ E) as [_ Hb0].
    rewrite first_update by reflexivity. rewrite E. simpl. rewrite Hb0.
    eexists. split; [reflexivity|]. split; reflexivity.
  - rewrite first_update by reflexivity. rewrite first_insert, E.
    rewrite budget_of_refl. simpl. rewrite budget_of_refl.
    eexists. split; [reflexivity|]. split; reflexivity.
Qed.

Lemma credit_receiver_row :
  exists b,
    Sql.first (budget_of u) (credit_receiver u amount bs) = Some b /\
    b_earned_cents b = Num.add (earned_before u bs) amount.
Proof.
  unfold credit_receiver, earned_before.
  destruct (Sql.first (budget_of u) bs) as [b0|] eqn:E; simpl.
  - destruct (first_some _ _ _ E) as [_ Hb0].
    rewrite first_update by reflexivity. rewrite E. simpl. rewrite Hb0.
    eexists. split; reflexivity.
  - rewrite first_update by reflexivity. rewrite first_insert, E.
    rewrite budget_of_refl. simpl. rewrite budget_of_refl.
    eexists. split; reflexivity.
Qed.

(** Crediting a receiver leaves the spent cents of every row alone. *)
Lemma credit_receiver_keeps_spent (v : string) (b : budget) :
  Sql.first (budget_of v) bs = Some b ->
  exists b',
    Sql.first (budget_of v) (credit_receiver u amount bs) = Some b' /\
    b_spent_cents b' = b_spent_cents b.
Proof.
  intros E. unfold credit_receiver.
  rewrite first_update by reflexivity.
  assert (H : forall t, Sql.first (budget_of v) bs = Some b ->
              Sql.first (budget_of v)
                (if truthy (option_map b_earned_cents (Sql.first (budget_of u) bs))
                 then bs else Sql.insert t bs) = Some b).
  { intros t Hb. destruct (truthy _); [assumption|].
    now rewrite first_insert, Hb. }
  rewrite (H _ E). simpl. destruct (budget_of u b); eexists; split; reflexivity.
Qed.

Lemma charge_sender_other (v : string) :
  v <> u ->
  Sql.first (budget_of v) (charge_sender u amount bs) =
  Sql.first (budget_of v) bs.
Proof.
  intros Hne. unfold charge_sender.
  rewrite first_update by reflexivity.
  assert (H : forall t, b_user_id t = u ->
              Sql.first (budget_of v)
                (if truthy (option_map b_spent_cents (Sql.first (budget_of u) bs))
                 then bs else Sql.insert t bs) = Sql.first (budget_of v) bs).
  { intros t Ht. destruct (truthy _); [reflexivity|].
    rewrite first_insert. destruct (Sql.first (budget_of v) bs); [reflexivity|].
    destruct (budget_of v t) eqn:Hv; [|reflexivity].
    apply budget_of_iff in Hv. congruence. }
  rewrite H by reflexivity.
  destruct (Sql.first (budget_of v) bs) as [b|] eqn:E; [|reflexivity].
  simpl. destruct (first_some _ _ _ E) as [_ Hb].
  now rewrite (budget_of_other u v b Hne Hb).
Qed.

Lemma credit_receiver_other (v : string) :
  v <> u ->
  Sql.first (budget_of v) (credit_receiver u amount bs) =
  Sql.first (budget_of v) bs.
Proof.
  intros Hne. unfold credit_receiver.
  rewrite first_update by reflexivity.
  assert (H : forall t, b_user_id t = u ->
              Sql.first (budget_of v)
                (if truthy (option_map b_earned_cents (Sql.first (budget_of u) bs))
                 then bs else Sql.insert t bs) = Sql.first (budget_of v) bs).
  { intros t Ht. destruct (truthy _); [reflexivity|].
    rewrite first_insert. destruct (Sql.first (budget_of v) bs); [reflexivity|].
    destruct (budget_of v t) eqn:Hv; [|reflexivity].
    apply budget_of_iff in Hv. congruence. }
  rewrite H by reflexivity.
  destruct (Sql.first (budget_of v) bs) as [b|] eqn:E; [|reflexivity].
  simpl. destruct (first_some _ _ _ E) as [_ Hb].
  now rewrite (budget_of_other u v b Hne Hb).
Qed.

End BudgetWrites.

Lemma has_user_iff (u : string) (d : device) :
  has_user u d = true <-> d_user_id d = u.
Proof. unfold has_user. apply String.eqb_eq. Qed.

Lemma no_device_of_user (u : string) (s : db) :
  (forall d, In d (devices s) -> d_user_id d <> u) ->
  forall d, In d (devices s) -> has_user u d = false.
Proof.
  intros H d Hd. destruct (has_user u d) eqn:E; [|reflexivity].
  apply has_user_iff in E. now destruct (H d Hd).
Qed.

(** ** Claiming a job *)

Lemma job_status_eqb_eq (a b : job_status) : job_status_eqb a b = true <-> a = b.
Proof. destruct a, b; simpl; split; intros H; try reflexivity; discriminate. Qed.

Lemma queued_for_iff (u : string) (j : job) :
  queued_for u j = true <-> is_queued_for u j.
Proof.
  unfold queued_for, is_queued_for.
  now rewrite andb_true_iff, String.eqb_eq, job_status_eqb_eq.
Qed.

Lemma queued_for_false (u : string) (j : job) :
  queued_for u j = false <-> ~ is_queued_for u j.
Proof.
  rewrite <- queued_for_iff. destruct (queued_for u j); split; intros H;
    try reflexivity; try discriminate; try (intros E; discriminate E).
  now destruct H.
Qed.

(** With unique ids, an update by id touches the one row that has the id. *)
Lemma update_by_id_one_row (f : job -> job) (pre post : list job) (q : job) :
  NoDup (map j_id (pre ++ q :: post)) ->
  Sql.update (has_id (j_id q)) f (pre ++ q :: post) = pre ++ f q :: post.
Proof.
  intros Huniq. rewrite map_app in Huniq. simpl in Huniq.
  apply NoDup_remove_2 in Huniq.
  assert (Hother : forall x, In x pre \/ In x post -> has_id (j_id q) x = false).
  { intros x Hx. destruct (has_id (j_id q) x) eqn:E; [|reflexivity].
    apply has_id_iff in E. exfalso. apply Huniq. rewrite <- E.
    apply in_or_app. destruct Hx as [Hx|Hx]; [left|right]; now apply in_map. }
  rewrite update_app. rewrite update_no_match by (intros x Hx; apply Hother; now left).
  f_equal. change (q :: post) with ([q] ++ post). rewrite update_app.
  rewrite (update_no_match _ _ post) by (intros x Hx; apply Hother; now right).
  unfold Sql.update. simpl. unfold has_id. now rewrite String.eqb_refl.
Qed.

(** C4: when no QUEUED job is assigned to the polling device, CheckForJobs
    answers with job null and changes nothing; when there is one and job ids
    are unique, it takes the first such job of the table (the one submitted
    earliest), turns that row and no other to RUNNING, and answers with its
    id, lang, code and filename. *)
Theorem check_for_jobs_claims_oldest (u : string) (s : db) :
  ((forall j, In j (jobs s) -> ~ is_queued_for u j) ->
   step (CheckForJobs u) s = (c_json (JObj [("job", JNull)]), s)) /\
  (forall j0,
      unique_job_ids s -> In j0 (jobs s) -> is_queued_for u j0 ->
      exists pre q post,
        jobs s = pre ++ q :: post /\
        (forall j, In j pre -> ~ is_queued_for u j) /\
        is_queued_for u q /\
        step (CheckForJobs u) s =
        (c_json (JObj [("job",
                        JObj [("id", JStr (j_id q)); ("lang", JStr (j_lang q));
                              ("code", JStr (j_code q));
                              ("filename", JStr (j_filename q))])]),
         mkDb (devices s)
              (pre ++ mkJob (j_id q) (j_requester q) (j_device_id q) (j_filename q)
                            (j_lang q) (j_code q) RUNNING (j_cost_usd q)
                            (j_stdoutt q) (j_stderr q) :: post)
              (ledger s) (budgets s))).
Proof.
  unfold step, serve, handle, check_for_jobs, bind, query, run, reply. split.
  - intros Hnone.
    assert (H : Sql.first (queued_for u) (jobs s) = None).
    { apply first_none. intros j Hj. apply queued_for_false. now apply Hnone. }
    now rewrite H.
  - intros j0 Huniq Hin Hq.
    destruct (Sql.first (queued_for u) (jobs s)) as [q|] eqn:E.
    + destruct (first_split _ _ _ E) as (pre & post & Hjobs & Hpre & Hqq).
      exists pre, q, post. split; [exact Hjobs|]. split.
      { intros j Hj. apply queued_for_false. now apply Hpre. }
      split; [now apply queued_for_iff|].
      simpl. unfold with_jobs. simpl. f_equal. f_equal.
      unfold unique_job_ids in Huniq. rewrite Hjobs in *.
      now rewrite update_by_id_one_row.
    + exfalso. apply queued_for_iff in Hq.
      rewrite (proj1 (first_none _ _) E j0 Hin) in Hq. discriminate.
Qed.

Lemma check_for_jobs_claims_oldest_witness :
  exists pre q post,
    jobs Sample.one_queued = pre ++ q :: post /\
    (forall j, In j pre -> ~ is_queued_for "bob" j) /\
    is_queued_for "bob" q /\
    step (CheckForJobs "bob") Sample.one_queued =
    (c_json (JObj [("job",
                    JObj [("id", JStr (j_id q)); ("lang", JStr (j_lang q));
                          ("code", JStr (j_code q));
                          ("filename", JStr (j_filename q))])]),
     mkDb (devices Sample.one_queued)
          (pre ++ mkJob (j_id q) (j_requester q) (j_device_id q) (j_filename q)
                        (j_lang q) (j_code q) RUNNING (j_cost_usd q)
                        (j_stdoutt q) (j_stderr q) :: post)
          (ledger Sample.one_queued) (budgets Sample.one_queued)).
Proof.
  apply (proj2 (check_for_jobs_claims_oldest "bob" Sample.one_queued)
               (new_job "j1" Sample.alice_to_bob)).
  - unfold unique_job_ids. simpl. repeat constructor. intros [].
  - simpl. left. reflexivity.
  - split; reflexivity.
Defined.

(** ** What each request does to the job table *)

Lemma exec_read_only (o : op) (s : db) :
  match o with
  | ListActiveDevices | ListJobsForUser _ | GetBudget _ => True
  | _ => False
  end ->
  exec o s = s.
Proof.
  destruct o; intros H; try contradiction; try reflexivity.
  unfold exec, step, serve, handle, get_budget, bind, query.
  destruct (Sql.first (budget_of user_id) (budgets s)); reflexivity.
Qed.

Lemma jobs_exec_heartbeat (id now : string) (r : heartbeat_req) (s : db) :
  jobs (exec (Heartbeat id now r) s) = jobs s.
Proof.
  unfold exec, step, serve, handle, heartbeat.
  destruct (heartbeat_missing r); [reflexivity|].
  unfold bind, query, run, reply.
  destruct (Sql.first (has_user (hb_user_id r)) (devices s)); reflexivity.
Qed.

Lemma jobs_exec_check (u : string) (s : db) :
  jobs (exec (CheckForJobs u) s) =
  match Sql.first (queued_for u) (jobs s) with
  | Some q => Sql.update (has_id (j_id q)) (set_status RUNNING) (jobs s)
  | None => jobs s
  end.
Proof.
  unfold exec, step, serve, handle, check_for_jobs, bind, query, run, reply.
  destruct (Sql.first (queued_for u) (jobs s)); reflexivity.
Qed.

Lemma jobs_exec_update (r : update_req) (s : db) :
  jobs (exec (UpdateJob r) s) =
  if truthy (uj_job_id r)
  then Sql.update (has_id (uj_job_id r))
         (finish (text_or_empty (uj_stdout r)) (text_or_empty (uj_stderr r)))
         (jobs s)
  else jobs s.
Proof.
  unfold exec, step, serve, handle, update_job.
  destruct (truthy (uj_job_id r)); reflexivity.
Qed.

Lemma jobs_exec_submit (id lid ts : string) (r : submit_req) (s : db) :
  jobs (exec (SubmitJob id lid ts r) s) = jobs s \/
  jobs (exec (SubmitJob id lid ts r) s) = jobs s ++ [new_job id r].
Proof.
  unfold exec, step, serve, handle, submit_job.
  destruct (submit_missing r); [now left|].
  destruct (lang_ok (sj_lang r)); [|now left]. right. simpl.
  unfold bind, run, query, when_, reply, ret. simpl.
  destruct (sj_cost_usd r) as [[|c|t]|]; try reflexivity.
  simpl. destruct (Num.is_nan c); [reflexivity|]. simpl.


  destruct (Sql.first (budget_of (sj_requester r)) (budgets s)); simpl;
    match goal with
    | |- context [Sql.first (budget_of (sj_device_id r)) ?t] =>
        destruct (Sql.first (budget_of (sj_device_id r)) t)
    end; reflexivity.
Qed.

(** Two rows of a table with unique ids that share an id are one row. *)
Lemma same_id_same_job (l : list job) (a b : job) :
  NoDup (map j_id l) -> In a l -> In b l -> j_id a = j_id b -> a = b.
Proof.
  induction l as [|x l IH]; simpl; intros Huniq Ha Hb Hid; [contradiction|].
  inversion Huniq as [|? ? Hnotin Hrest]; subst.
  destruct Ha as [->|Ha], Hb as [->|Hb].
  - reflexivity.
  - exfalso. apply Hnotin. rewrite Hid. now apply in_map.
  - exfalso. apply Hnotin. rewrite <- Hid. now apply in_map.
  - now apply IH.
Qed.

(** One request: a row keeps its place and its id, and its status stays,
    or goes from QUEUED to RUNNING by a claim, or to FINISHED by a report. *)
Lemma exec_job_row (o : op) (s : db) (i : nat) (j : job) :
  unique_job_ids s ->
  nth_error (jobs s) i = Some j ->
  exists j',
    nth_error (jobs (exec o s)) i = Some j' /\
    j_id j' = j_id j /\
    (j_status j' = j_status j \/
     (exists u, o = CheckForJobs u /\ j_status j = QUEUED /\ j_status j' = RUNNING) \/
     (exists r, o = UpdateJob r /\ j_id j = uj_job_id r /\ j_status j' = FINISHED)).
Proof.
  intros Huniq Hnth. destruct o as [id now r| |u|u|id lid ts r|r|u].
  - rewrite jobs_exec_heartbeat. exists j. auto.
  - rewrite exec_read_only by exact I. exists j. auto.
  - rewrite exec_read_only by exact I. exists j. auto.
  - rewrite jobs_exec_check.
    destruct (Sql.first (queued_for u) (jobs s)) as [q|] eqn:E; [|exists j; auto].
    rewrite update_nth, Hnth. simpl.
    destruct (has_id (j_id q) j) eqn:Hid; [|exists j; auto].
    destruct (first_some _ _ _ E) as [Hq Hqueued].
    apply has_id_iff in Hid.
    assert (j = q) as ->.
    { apply (same_id_same_job (jobs s)); auto. eapply nth_error_In; eauto. }
    apply queued_for_iff in Hqueued. destruct Hqueued as [_ Hst].
    exists (set_status RUNNING q). repeat split. right. left. exists u. auto.
  - destruct (jobs_exec_submit id lid ts r s) as [-> | ->].
    + exists j. auto.
    + exists j. rewrite nth_error_app1 by (apply nth_error_Some; congruence). auto.
  - rewrite jobs_exec_update. destruct (truthy (uj_job_id r)); [|exists j; auto].
    rewrite update_nth, Hnth. simpl.
    destruct (has_id (uj_job_id r) j) eqn:Hid; [|exists j; auto].
    apply has_id_iff in Hid. eexists. repeat split.
    right. right. exists r. auto.
  - rewrite exec_read_only by exact I. exists j. auto.
Qed.

Lemma exec_new_job_row (o : op) (s : db) (i : nat) (j' : job) :
  nth_error (jobs s) i = None ->
  nth_error (jobs (exec o s)) i = Some j' ->
  j_status j' = QUEUED /\
  exists id lid ts r, o = SubmitJob id lid ts r /\ j' = new_job id r.
Proof.
  intros Hnone Hsome.
  assert (Hsame : jobs (exec o s) = jobs s -> False) by (intros E; congruence).
  assert (Hlen : List.length (jobs (exec o s)) = List.length (jobs s) -> False).
  { intros E. apply nth_error_None in Hnone.
    assert (nth_error (jobs (exec o s)) i <> None) as Hlt by congruence.
    apply nth_error_Some in Hlt. lia. }
  destruct o as [id now r| |u|u|id lid ts r|r|u].
  - destruct Hsame. apply jobs_exec_heartbeat.
  - destruct Hsame. now rewrite exec_read_only.
  - destruct Hsame. now rewrite exec_read_only.
  - destruct Hlen. rewrite jobs_exec_check.
    destruct (Sql.first (queued_for u) (jobs s)); [apply update_length|reflexivity].
  - destruct (jobs_exec_submit id lid ts r s) as [E|E]; [now destruct Hsame|].
    rewrite E in Hsome. apply nth_error_None in Hnone.
    rewrite nth_error_app2 in Hsome by exact Hnone.
    destruct (i - List.length (jobs s))%nat as [|k]; simpl in Hsome.
    + injection Hsome as <-. split; [reflexivity|]. now exists id, lid, ts, r.
    + destruct k; discriminate.
  - destruct Hlen. rewrite jobs_exec_update.
    destruct (truthy (uj_job_id r)); [apply update_length|reflexivity].
  - destruct Hsame. now rewrite exec_read_only.
Qed.

(** C3, as stated, fails: a result report for a job that is still QUEUED
    takes it to FINISHED in one step, past RUNNING. *)
Lemma queued_job_finished_directly_counterexample :
  ~ forward_only (UpdateJob (mkUpdate "j1" (Some "out") None)) Sample.one_queued.
Proof.
  intros H.
  specialize (H 0%nat (new_job "j1" Sample.alice_to_bob)
                (finish "out" "" (new_job "j1" Sample.alice_to_bob))
                eq_refl eq_refl).
  destruct H as [H|[[_ H]|[H _]]]; discriminate H.
Qed.

(** C3, amended: while job ids are unique, no sequence of requests moves a
    job's status backward in the order QUEUED, RUNNING, FINISHED, and a job
    keeps its row and its id.  A single request leaves a status as it is,
    or takes it from QUEUED to RUNNING (CheckForJobs), or sets it to
    FINISHED from whatever it was (UpdateJob), so that a QUEUED job can go
    to FINISHED directly; a row that appears is a QUEUED job written by
    SubmitJob. *)
Theorem job_status_never_moves_backward :
  (forall ops s i j,
      ids_unique_along ops s ->
      nth_error (jobs s) i = Some j ->
      exists j',
        nth_error (jobs (exec_all ops s)) i = Some j' /\
        j_id j' = j_id j /\
        (rank (j_status j) <= rank (j_status j'))%nat) /\
  (forall o s i j,
      unique_job_ids s ->
      nth_error (jobs s) i = Some j ->
      exists j',
        nth_error (jobs (exec o s)) i = Some j' /\
        j_id j' = j_id j /\
        (j_status j' = j_status j \/
         (exists u, o = CheckForJobs u /\ j_status j = QUEUED /\ j_status j' = RUNNING) \/
         (exists r, o = UpdateJob r /\ j_id j = uj_job_id r /\ j_status j' = FINISHED))) /\
  (forall o s i j',
      nth_error (jobs s) i = None ->
      nth_error (jobs (exec o s)) i = Some j' ->
      j_status j' = QUEUED /\
      exists id lid ts r, o = SubmitJob id lid ts r /\ j' = new_job id r).
Proof.
  split; [|split].
  - induction ops as [|o ops IH]; intros s i j Huniq Hnth.
    + exists j. simpl. auto.
    + destruct Huniq as [Hs Hrest].
      destruct (exec_job_row o s i j Hs Hnth) as (j1 & Hnth1 & Hid1 & Hmove).
      destruct (IH (exec o s) i j1 Hrest Hnth1) as (j' & Hnth' & Hid' & Hrank).
      exists j'. simpl. split; [exact Hnth'|]. split; [congruence|].
      assert (rank (j_status j) <= rank (j_status j1))%nat.
      { destruct Hmove as [E|[(u & _ & Ea & Eb)|(r & _ & _ & Eb)]].
        - rewrite E. lia.
        - rewrite Ea, Eb. simpl. lia.
        - rewrite Eb. destruct (j_status j); simpl; lia. }
      lia.
  - exact exec_job_row.
  - exact exec_new_job_row.
Qed.

Lemma job_status_never_moves_backward_witness :
  exists j',
    nth_error (jobs (exec_all [CheckForJobs "bob";
                               UpdateJob (mkUpdate "j1" (Some "out") None)]
                              Sample.one_queued)) 0 = Some j' /\
    j_id j' = "j1" /\
    (rank QUEUED <= rank (j_status j'))%nat.
Proof.
  apply (proj1 job_status_never_moves_backward
               [CheckForJobs "bob"; UpdateJob (mkUpdate "j1" (Some "out") None)]
               Sample.one_queued 0%nat (new_job "j1" Sample.alice_to_bob)).
  - simpl. unfold unique_job_ids. simpl.
    repeat split; repeat constructor; intros [].
  - reflexivity.
Defined.

(** ** The device registry *)

Lemma devices_exec_heartbeat (id now : string) (r : heartbeat_req) (s : db) :
  devices (exec (Heartbeat id now r) s) =
  if heartbeat_missing r then devices s
  else match Sql.first (has_user (hb_user_id r)) (devices s) with
       | Some _ =>
           Sql.update (has_user (hb_user_id r))
             (fun d => mkDevice id (d_user_id d) (hb_url r) (hb_cpu_cores r)
                         (hb_cpu_load r) (hb_ram_total r) (hb_ram_used r)
                         (hb_disk_free r) (hb_status r) now)
             (devices s)
       | None => devices s ++ [device_of id now r]
       end.
Proof.
  unfold exec, step, serve, handle, heartbeat.
  destruct (heartbeat_missing r); [reflexivity|].
  unfold bind, query, run, reply.
  destruct (Sql.first (has_user (hb_user_id r)) (devices s)); reflexivity.
Qed.

Lemma devices_exec_submit (id lid ts : string) (r : submit_req) (s : db) :
  devices (exec (SubmitJob id lid ts r) s) = devices s \/
  devices (exec (SubmitJob id lid ts r) s) =
  Sql.update (has_user (sj_device_id r)) (set_device_status "BUSY") (devices s).
Proof.
  unfold exec, step, serve, handle, submit_job.
  destruct (submit_missing r); [now left|].
  destruct (lang_ok (sj_lang r)); [|now left]. right. simpl.
  unfold bind, run, query, when_, reply, ret. simpl.
  destruct (sj_cost_usd r) as [[|c|t]|]; try reflexivity.
  simpl. destruct (Num.is_nan c); [reflexivity|]. simpl.


  destruct (Sql.first (budget_of (sj_requester r)) (budgets s)); simpl;
    match goal with
    | |- context [Sql.first (budget_of (sj_device_id r)) ?t] =>
        destruct (Sql.first (budget_of (sj_device_id r)) t)
    end; reflexivity.
Qed.

Lemma devices_exec_update (r : update_req) (s : db) :
  devices (exec (UpdateJob r) s) = devices s \/
  exists p, devices (exec (UpdateJob r) s) =
            Sql.update p (set_device_status "ACTIVE") (devices s).
Proof.
  unfold exec, step, serve, handle, update_job.
  destruct (truthy (uj_job_id r)); [|now left].
  right. eexists. reflexivity.
Qed.

Lemma devices_exec_check (u : string) (s : db) :
  devices (exec (CheckForJobs u) s) = devices s.
Proof.
  unfold exec, step, serve, handle, check_for_jobs, bind, query, run, reply.
  destruct (Sql.first (queued_for u) (jobs s)); reflexivity.
Qed.

(** Every request keeps the registry at one row per user at most. *)
Lemma exec_keeps_unique_device_users (o : op) (s : db) :
  unique_device_users s -> unique_device_users (exec o s).
Proof.
  unfold unique_device_users. intros Huniq.
  destruct o as [id now r| |u|u|id lid ts r|r|u].
  - rewrite devices_exec_heartbeat.
    destruct (heartbeat_missing r); [assumption|].
    destruct (Sql.first (has_user (hb_user_id r)) (devices s)) eqn:E.
    + now rewrite update_column by reflexivity.
    + rewrite map_app. simpl.
      apply NoDup_app; [assumption|repeat constructor; intros []|].
      intros x Hx [<-|[]].
      apply in_map_iff in Hx. destruct Hx as (d & Hd & Hin).
      pose proof (proj1 (first_none _ _) E d Hin) as Hfalse.
      apply has_user_iff in Hd. congruence.
  - now rewrite exec_read_only.
  - now rewrite exec_read_only.
  - now rewrite devices_exec_check.
  - destruct (devices_exec_submit id lid ts r s) as [-> | ->]; [assumption|].
    now rewrite update_column by reflexivity.
  - destruct (devices_exec_update r s) as [-> | [p ->]]; [assumption|].
    now rewrite update_column by reflexivity.
  - now rewrite exec_read_only.
Qed.

Lemma exec_all_keeps_unique_device_users (ops : list op) (s : db) :
  unique_device_users s -> unique_device_users (exec_all ops s).
Proof.
  revert s. induction ops as [|o ops IH]; intros s H; [assumption|].
  simpl. apply IH. now apply exec_keeps_unique_device_users.
Qed.

Lemma all_one_row_per_user (u : string) (l : list device) :
  NoDup (map d_user_id l) ->
  Sql.all (has_user u) l =
  match Sql.first (has_user u) l with
  | Some d => [d]
  | None => []
  end.
Proof.
  unfold Sql.all, Sql.first.
  induction l as [|x l IH]; simpl; intros Huniq; [reflexivity|].
  inversion Huniq as [|? ? Hnotin Hrest]; subst.
  destruct (has_user u x) eqn:E; [|now apply IH].
  f_equal. apply all_none. intros y Hy.
  destruct (has_user u y) eqn:Ey; [|reflexivity].
  apply has_user_iff in E, Ey. exfalso. apply Hnotin.
  rewrite E, <- Ey. now apply in_map.
Qed.

Lemma all_update_same (u : string) (f : device -> device) (l : list device) :
  (forall d, d_user_id (f d) = d_user_id d) ->
  Sql.all (has_user u) (Sql.update (has_user u) f l) =
  map f (Sql.all (has_user u) l).
Proof.
  intros Hf. unfold Sql.all, Sql.update.
  induction l as [|x l IH]; simpl; [reflexivity|].
  destruct (has_user u x) eqn:E; simpl.
  - unfold has_user at 1. rewrite Hf. fold (has_user u x). rewrite E.
    simpl. now f_equal.
  - now rewrite E.
Qed.

Section Heartbeats.

Variables (id now : string) (r : heartbeat_req).
Hypothesis fields_present : heartbeat_missing r = false.

(** A heartbeat leaves one row for its user: the one it describes. *)
Lemma heartbeat_own_row (s : db) :
  unique_device_users s ->
  Sql.all (has_user (hb_user_id r)) (devices (exec (Heartbeat id now r) s)) =
  [device_of id now r].
Proof.
  intros Huniq. rewrite devices_exec_heartbeat, fields_present.
  destruct (Sql.first (has_user (hb_user_id r)) (devices s)) as [d0|] eqn:E.
  - rewrite all_update_same by reflexivity.
    rewrite (all_one_row_per_user _ _ Huniq), E. simpl.
    destruct (first_some _ _ _ E) as [_ Hd0]. apply has_user_iff in Hd0.
    unfold device_of. now rewrite Hd0.
  - fold (Sql.insert (device_of id now r) (devices s)).
    rewrite all_insert, (all_none _ _ (proj1 (first_none _ _) E)).
    unfold has_user at 1. simpl. now rewrite String.eqb_refl.
Qed.

End Heartbeats.

(** A heartbeat leaves the rows of every other user alone. *)
Lemma heartbeat_other_rows (id now : string) (r : heartbeat_req) (v : string) (s : db) :
  hb_user_id r <> v ->
  Sql.all (has_user v) (devices (exec (Heartbeat id now r) s)) =
  Sql.all (has_user v) (devices s).
Proof.
  intros Hne. rewrite devices_exec_heartbeat.
  destruct (heartbeat_missing r); [reflexivity|].
  destruct (Sql.first (has_user (hb_user_id r)) (devices s)).
  - apply all_update_other; [reflexivity|].
    intros y Hy. apply has_user_iff in Hy.
    unfold has_user. apply String.eqb_neq. congruence.
  - fold (Sql.insert (device_of id now r) (devices s)). rewrite all_insert.
    unfold has_user at 2. simpl.
    destruct (String.eqb_spec (hb_user_id r) v); [contradiction|].
    apply app_nil_r.
Qed.

Lemma heartbeats_of_others (v : string) (ops : list op) (s : db) :
  forallb is_heartbeat ops = true ->
  (forall id now r, In (Heartbeat id now r) ops -> hb_user_id r <> v) ->
  Sql.all (has_user v) (devices (exec_all ops s)) =
  Sql.all (has_user v) (devices s).
Proof.
  revert s. induction ops as [|o ops IH]; intros s Hhb Hothers; [reflexivity|].
  simpl in Hhb. apply andb_true_iff in Hhb. destruct Hhb as [Ho Hrest].
  destruct o; try discriminate Ho. simpl.
  rewrite IH; [|assumption|intros; eapply Hothers; right; eassumption].
  apply heartbeat_other_rows. eapply Hothers. left. reflexivity.
Qed.

Lemma exec_all_app (ops1 ops2 : list op) (s : db) :
  exec_all (ops1 ++ ops2) s = exec_all ops2 (exec_all ops1 s).
Proof. unfold exec_all. apply fold_left_app. Qed.

Lemma all_succeed_app (ops1 ops2 : list op) (s : db) :
  all_succeed (ops1 ++ ops2) s =
  all_succeed ops1 s && all_succeed ops2 (exec_all ops1 s).
Proof.
  revert s. induction ops1 as [|o ops1 IH]; intros s; simpl; [reflexivity|].
  now rewrite IH, andb_assoc.
Qed.

Lemma heartbeat_succeeded (id now : string) (r : heartbeat_req) (s : db) :
  succeeded (Heartbeat id now r) s = true -> heartbeat_missing r = false.
Proof.
  unfold succeeded, step, serve, handle, heartbeat.
  destruct (heartbeat_missing r); [discriminate|reflexivity].
Qed.

(** C8: every request keeps the registry at one row per user at most, and
    after any sequence of successful heartbeats the user of a heartbeat that
    no later one of the sequence overrides has exactly one row, which holds
    the values of that heartbeat with the id and the time stamp generated
    for it. *)
Theorem heartbeat_one_row_latest_values :
  unique_device_users empty_db /\
  (forall o s, unique_device_users s -> unique_device_users (exec o s)) /\
  (forall before id now r later s,
      unique_device_users s ->
      forallb is_heartbeat (before ++ Heartbeat id now r :: later) = true ->
      all_succeed (before ++ Heartbeat id now r :: later) s = true ->
      (forall id' now' r', In (Heartbeat id' now' r') later ->
                           hb_user_id r' <> hb_user_id r) ->
      Sql.all (has_user (hb_user_id r))
              (devices (exec_all (before ++ Heartbeat id now r :: later) s)) =
      [mkDevice id (hb_user_id r) (hb_url r) (hb_cpu_cores r) (hb_cpu_load r)
                (hb_ram_total r) (hb_ram_used r) (hb_disk_free r) (hb_status r)
                now]).
Proof.
  split; [constructor|]. split; [exact exec_keeps_unique_device_users|].
  intros before id now r later s Huniq Hhb Hok Hlater.
  rewrite exec_all_app. simpl.
  rewrite forallb_app in Hhb. apply andb_true_iff in Hhb.
  destruct Hhb as [_ Hhb]. simpl in Hhb.
  rewrite all_succeed_app in Hok. apply andb_true_iff in Hok.
  destruct Hok as [_ Hok]. simpl in Hok. apply andb_true_iff in Hok.
  destruct Hok as [Hok _]. apply heartbeat_succeeded in Hok.
  rewrite heartbeats_of_others by assumption.
  apply (heartbeat_own_row id now r Hok).
  now apply exec_all_keeps_unique_device_users.
Qed.

Lemma heartbeat_one_row_latest_values_witness :
  Sql.all (has_user "bob")
          (devices (exec_all ([Heartbeat "d1" "t0" Sample.laptop;
                               Heartbeat "d2" "t1" Sample.laptop] ++
                              Heartbeat "d3" "t2" Sample.laptop_later :: [])
                             empty_db)) =
  [mkDevice "d3" "bob" "https://bob2.example" (Sample.n 4) (Sample.n 2)
            (Sample.n 8) (Sample.n 3) (Sample.n 50) "ACTIVE" "t2"].
Proof.
  apply (proj2 (proj2 heartbeat_one_row_latest_values)
               [Heartbeat "d1" "t0" Sample.laptop; Heartbeat "d2" "t1" Sample.laptop]
               "d3" "t2" Sample.laptop_later [] empty_db).
  - constructor.
  - reflexivity.
  - reflexivity.
  - intros id' now' r' [].
Defined.

(** ** Ledger and budgets *)

(** C1: alice pays bob for a job, then bob pays alice for one, one dollar
    each.  The row of alice was created when she sent, with 0 earned cents,
    and the ledger holds 100 cents paid to her; her earned cents are 1100,
    the update having started from 1000 because the stored 0 is falsy.  Her
    spent cents are in step with the ledger. *)
Theorem earned_cents_restart_from_baseline :
  let s1 := exec (SubmitJob "j1" "l1" "100" Sample.alice_to_bob) empty_db in
  let s2 := exec (SubmitJob "j2" "l2" "101" Sample.bob_to_alice) s1 in
  all_succeed [SubmitJob "j1" "l1" "100" Sample.alice_to_bob;
               SubmitJob "j2" "l2" "101" Sample.bob_to_alice] empty_db = true /\
  Sql.first (budget_of "alice") (budgets s1) =
    Some (mkBudget "alice" (Num.of_Z (-100)) (Num.of_Z 0)) /\
  sent_total "alice" s2 = Num.of_Z 100 /\
  received_total "alice" s2 = Num.of_Z 100 /\
  Sql.first (budget_of "alice") (budgets s2) =
    Some (mkBudget "alice" (Num.of_Z (-100)) (Num.of_Z 1100)) /\
  ~ budget_consistent (Num.of_Z 0) "alice" s2.
Proof.
  cbv zeta.
  assert (Hrow1 :
            Sql.first (budget_of "alice")
              (budgets (exec (SubmitJob "j1" "l1" "100" Sample.alice_to_bob) empty_db)) =
            Some (mkBudget "alice" (Num.of_Z (-100)) (Num.of_Z 0))).
  { vm_compute. reflexivity. }
  assert (Hrow2 :
            Sql.first (budget_of "alice")
              (budgets (exec (SubmitJob "j2" "l2" "101" Sample.bob_to_alice)
                             (exec (SubmitJob "j1" "l1" "100" Sample.alice_to_bob)
                                   empty_db))) =
            Some (mkBudget "alice" (Num.of_Z (-100)) (Num.of_Z 1100))).
  { vm_compute. reflexivity. }
  split; [reflexivity|]. split; [exact Hrow1|].
  split; [vm_compute; reflexivity|].
  split; [vm_compute; reflexivity|].
  split; [exact Hrow2|].
  intros (b & Hb & _ & Hearned).
  rewrite Hrow2 in Hb. injection Hb as <-.
  apply (f_equal (fun x => Num.eqb x (Num.of_Z 1100))) in Hearned.
  vm_compute in Hearned. discriminate Hearned.
Qed.

(** *** Who writes to the ledger and the budgets *)

(** What a request does to the ledger and the budgets: nothing, or the
    writes of an accepted submission. *)
Lemma exec_ledger_budgets (o : op) (s : db) :
  (ledger (exec o s) = ledger s /\ budgets (exec o s) = budgets s) \/
  (exists id lid ts r cost_usd,
      o = SubmitJob id lid ts r /\
      exec o s = submitted id lid ts r (amountCents cost_usd) s).
Proof.
  destruct o as [id now r| |u|u|id lid ts r|r|u].
  - left. unfold exec, step, serve, handle, heartbeat.
    destruct (heartbeat_missing r); [now split|].
    unfold bind, query, run, reply.
    destruct (Sql.first (has_user (hb_user_id r)) (devices s)); now split.
  - left. now rewrite exec_read_only.
  - left. now rewrite exec_read_only.
  - left. unfold exec, step, serve, handle, check_for_jobs, bind, query, run, reply.
    destruct (Sql.first (queued_for u) (jobs s)); now split.
  - destruct (submit_missing r) eqn:Hfields.
    { left. unfold exec, step, serve, handle, submit_job. rewrite Hfields. now split. }
    destruct (lang_ok (sj_lang r)) eqn:Hlang.
    2:{ left. unfold exec, step, serve, handle, submit_job.
        rewrite Hfields, Hlang. now split. }
    destruct (sj_cost_usd r) as [[|c|t]|] eqn:Hcost.
    2:{ destruct (Num.is_nan c) eqn:Hnan.
        - left. unfold exec.
          rewrite (submit_job_nan id lid ts r Hfields Hlang c s Hcost Hnan).
          now split.
        - right. exists id, lid, ts, r, c. split; [reflexivity|].
          unfold exec.
          now rewrite (submit_job_number id lid ts r Hfields Hlang c s Hcost Hnan). }
    all: left; unfold exec, step, serve, handle, submit_job;
      rewrite Hfields, Hlang, Hcost; now split.
  - left. unfold exec, step, serve, handle, update_job.
    destruct (truthy (uj_job_id r)); now split.
  - left. now rewrite exec_read_only.
Qed.

(** * Further properties of the handlers *)

(** ** Truthiness *)

Lemma truthy_string_false (x : string) : truthy x = false <-> x = "".
Proof. destruct x; simpl; split; intros H; try reflexivity; discriminate. Qed.

Lemma truthy_number_false (x : number) : truthy x = false <-> falsy_number x.
Proof.
  unfold truthy, truthy_number, falsy_number, Num.eqb, Num.is_nan.
  change (Num.of_Z 0) with 0%float.
  now rewrite negb_false_iff, orb_true_iff.
Qed.

Lemma heartbeat_missing_iff (r : heartbeat_req) :
  heartbeat_missing r = true <-> heartbeat_falsy r.
Proof.
  unfold heartbeat_missing, heartbeat_falsy.
  rewrite !orb_true_iff, !negb_true_iff, !truthy_string_false,
    !truthy_number_false.
  tauto.
Qed.

Lemma text_or_empty_value (o : option string) :
  text_or_empty o = match o with Some t => t | None => "" end.
Proof. destruct o as [[|a t]|]; reflexivity. Qed.

(** ** Heartbeat: validation and frame *)

(** X1: a heartbeat with an empty string field or a numeric field equal to
    zero (an idle cpu_load, a full disk) is answered 400 and writes nothing;
    every other heartbeat is answered with the success response. *)
Theorem heartbeat_rejects_empty_and_zero
        (id now : string) (r : heartbeat_req) (s : db) :
  (heartbeat_falsy r ->
   step (Heartbeat id now r) s =
   (c_json_status (error_body "Missing required fields") 400, s)) /\
  (~ heartbeat_falsy r ->
   fst (step (Heartbeat id now r) s) = c_json success_body).
Proof.
  unfold step, serve, handle, heartbeat. split; intros H.
  - apply heartbeat_missing_iff in H. now rewrite H.
  - destruct (heartbeat_missing r) eqn:E.
    + apply heartbeat_missing_iff in E. contradiction.
    + unfold bind, query, run, reply.
      destruct (Sql.first (has_user (hb_user_id r)) (devices s)); reflexivity.
Qed.

Lemma heartbeat_rejects_empty_and_zero_witness :
  step (Heartbeat "d9" "t9" Cases.idle_load) Sample.registered =
  (c_json_status (error_body "Missing required fields") 400, Sample.registered).
Proof.
  apply (proj1 (heartbeat_rejects_empty_and_zero "d9" "t9" Cases.idle_load
                  Sample.registered)).
  unfold heartbeat_falsy. right. right. right. left. left. reflexivity.
Defined.


(** X2: a heartbeat writes to the devices table only, and there only to the
    rows of its own user: jobs, ledger and budgets stay as they are, and so
    do the rows of every other user, a BUSY status included. *)
Theorem heartbeat_writes_own_rows_only
        (id now : string) (r : heartbeat_req) (s : db) :
  jobs (exec (Heartbeat id now r) s) = jobs s /\
  ledger (exec (Heartbeat id now r) s) = ledger s /\
  budgets (exec (Heartbeat id now r) s) = budgets s /\
  (forall v, hb_user_id r <> v ->
     Sql.all (has_user v) (devices (exec (Heartbeat id now r) s)) =
     Sql.all (has_user v) (devices s)).
Proof.
  split; [apply jobs_exec_heartbeat|].
  destruct (exec_ledger_budgets (Heartbeat id now r) s)
    as [[Hl Hb]|(? & ? & ? & ? & ? & Ho & _)]; [|discriminate Ho].
  split; [exact Hl|]. split; [exact Hb|].
  intros v Hv. now apply heartbeat_other_rows.
Qed.

Lemma heartbeat_writes_own_rows_only_witness :
  Sql.all (has_user "bob")
          (devices (exec (Heartbeat "d5" "t5"
                            (mkHeartbeat "carol" "https://carol.example"
                               (Num.of_Z 2) (Num.of_Z 1) (Num.of_Z 4)
                               (Num.of_Z 1) (Num.of_Z 9) "ACTIVE"))
                         Sample.one_queued)) =
  Sql.all (has_user "bob") (devices Sample.one_queued).
Proof.
  apply (proj2 (proj2 (proj2 (heartbeat_writes_own_rows_only "d5" "t5"
           (mkHeartbeat "carol" "https://carol.example"
              (Num.of_Z 2) (Num.of_Z 1) (Num.of_Z 4)
              (Num.of_Z 1) (Num.of_Z 9) "ACTIVE")
           Sample.one_queued)))).
  discriminate.
Defined.

(** ** Device listing *)

(** X3: ListActiveDevices answers with the devices whose status is ACTIVE
    and no others, each once and in table order, each with its url, the five
    resource figures and the user id, and without its id, status and
    last_seen; the store is left as it was. *)
Theorem list_devices_projects_active (s : db) :
  step ListActiveDevices s =
  (c_json
     (JArr
        (map (fun d =>
                JObj [("url", JStr (d_url d));
                      ("cpu_cores", JNum (d_cpu_cores d));
                      ("cpu_load", JNum (d_cpu_load d));
                      ("ram_total", JNum (d_ram_total d));
                      ("ram_used", JNum (d_ram_used d));
                      ("disk_free", JNum (d_disk_free d));
                      ("user_id", JStr (d_user_id d))])
             (filter (fun d => if string_dec (d_status d) "ACTIVE"
                               then true else false)
                     (devices s)))),
   s).
Proof.
  unfold step, serve, handle, list_devices, bind, query, reply, Sql.all.
  cbn [fst snd]. f_equal. f_equal. f_equal.
  assert (Hsame : forall d : device,
             String.eqb (d_status d) "ACTIVE" =
             if string_dec (d_status d) "ACTIVE" then true else false).
  { intros d. destruct (string_dec (d_status d) "ACTIVE") as [E|E].
    - now apply String.eqb_eq.
    - now apply String.eqb_neq. }
  rewrite (filter_ext _ _ Hsame). reflexivity.
Qed.

(** ** Submission: which requests are accepted *)

Lemma lang_ok_iff (lang : string) :
  lang_ok lang = true <-> lang = "python" \/ lang = "javascript".
Proof. unfold lang_ok. now rewrite orb_true_iff, !String.eqb_eq. Qed.

Lemma submit_missing_iff (r : submit_req) :
  submit_missing r = true <->
  sj_requester r = "" \/ sj_device_id r = "" \/ sj_filename r = "" \/
  sj_lang r = "" \/ sj_code r = "" \/ sj_cost_usd r = None.
Proof.
  unfold submit_missing.
  rewrite !orb_true_iff, !negb_true_iff, !truthy_string_false.
  assert (Hcost : truthy (sj_cost_usd r) = false <-> sj_cost_usd r = None).
  { destruct (sj_cost_usd r); simpl; split; intros H;
      try reflexivity; discriminate. }
  rewrite Hcost. tauto.
Qed.

(** X4: a submission with an empty required field, no cost_usd, or a
    language other than python and javascript is answered 400 before any
    write: no job row, no BUSY device, no ledger entry, no budget row. *)
Theorem submit_job_rejects_before_writing
        (id ledgerId epochTimestamp : string) (r : submit_req) (s : db) :
  submit_unacceptable r ->
  status_code (fst (step (SubmitJob id ledgerId epochTimestamp r) s)) = 400%Z /\
  exec (SubmitJob id ledgerId epochTimestamp r) s = s.
Proof.
  intros H. unfold exec, step, serve, handle, submit_job.
  destruct (submit_missing r) eqn:Hm; [now split|].
  destruct (lang_ok (sj_lang r)) eqn:Hl; [|now split].
  exfalso. apply lang_ok_iff in Hl.
  assert (Hnot : ~ (sj_requester r = "" \/ sj_device_id r = "" \/
                    sj_filename r = "" \/ sj_lang r = "" \/ sj_code r = "" \/
                    sj_cost_usd r = None)).
  { intros Hyes. apply submit_missing_iff in Hyes. congruence. }
  unfold submit_unacceptable in H. tauto.
Qed.

Lemma submit_job_rejects_before_writing_witness :
  status_code (fst (step (SubmitJob "j2" "l2" "101" Cases.ruby) Sample.registered))
  = 400%Z /\
  exec (SubmitJob "j2" "l2" "101" Cases.ruby) Sample.registered = Sample.registered.
Proof.
  apply (submit_job_rejects_before_writing "j2" "l2" "101" Cases.ruby
           Sample.registered).
  unfold submit_unacceptable. do 6 right. split; discriminate.
Defined.

(** X5: a submission is answered 200 exactly when its five string fields
    are non-empty, its language is python or javascript and its cost_usd is
    a number other than NaN; a cost of zero or below and an infinite one
    are accepted, and every other submission is answered 400. *)
Theorem submit_job_accepted_iff
        (id ledgerId epochTimestamp : string) (r : submit_req) (s : db) :
  (succeeded (SubmitJob id ledgerId epochTimestamp r) s = true <->
   ~ submit_unacceptable r /\
   exists c, sj_cost_usd r = Some (SNum c) /\ Num.is_nan c = false) /\
  (succeeded (SubmitJob id ledgerId epochTimestamp r) s = false ->
   status_code (fst (step (SubmitJob id ledgerId epochTimestamp r) s)) = 400%Z).
Proof.
  assert (Hacc : submit_missing r = false /\ lang_ok (sj_lang r) = true <->
                 ~ submit_unacceptable r).
  { unfold submit_unacceptable. split.
    - intros [Hm Hl] H. apply lang_ok_iff in Hl.
      assert (~ (sj_requester r = "" \/ sj_device_id r = "" \/
                 sj_filename r = "" \/ sj_lang r = "" \/ sj_code r = "" \/
                 sj_cost_usd r = None)).
      { intros Hyes. apply submit_missing_iff in Hyes. congruence. }
      tauto.
    - intros H. split.
      + destruct (submit_missing r) eqn:Hm; [|reflexivity].
        apply submit_missing_iff in Hm. tauto.
      + destruct (lang_ok (sj_lang r)) eqn:Hl; [reflexivity|].
        exfalso. apply H. do 6 right.
        split; intros E; rewrite E in Hl; discriminate Hl. }
  unfold succeeded.
  destruct (submit_missing r) eqn:Hm.
  { unfold step, serve, handle, submit_job. rewrite Hm. simpl. split.
    - split; [discriminate|]. intros [H _]. apply Hacc in H. destruct H. discriminate.
    - reflexivity. }
  destruct (lang_ok (sj_lang r)) eqn:Hl.
  2:{ unfold step, serve, handle, submit_job. rewrite Hm, Hl. simpl. split.
      - split; [discriminate|]. intros [H _]. apply Hacc in H. destruct H. discriminate.
      - reflexivity. }
  destruct (sj_cost_usd r) as [[|c|t]|] eqn:Hc.
  2:{ destruct (Num.is_nan c) eqn:Hnan.
      - rewrite (submit_job_nan id ledgerId epochTimestamp r Hm Hl c s Hc Hnan).
        simpl. split; [|reflexivity]. split; [discriminate|].
        intros [_ [c' [Habs Hnan']]]. injection Habs as <-. congruence.
      - rewrite (submit_job_number id ledgerId epochTimestamp r Hm Hl c s Hc Hnan).
        simpl. split; [|discriminate]. split; [|reflexivity].
        intros _. split; [now apply Hacc|now exists c]. }
  1,2: rewrite (submit_job_not_number id ledgerId epochTimestamp r Hm Hl _ s Hc)
    by discriminate; simpl; split; [|reflexivity];
    split; [discriminate|intros [_ [c [Habs _]]]; discriminate Habs].

  exfalso. assert (submit_missing r = true); [|congruence].
  apply submit_missing_iff. tauto.
Qed.

(** X6: every submission that gets past the field and language checks,
    whatever its cost_usd, sets each row of the target device to BUSY and
    changes nothing else of it; the rows of the other devices stay as they
    are. *)
Theorem submit_job_marks_device_busy
        (id ledgerId epochTimestamp : string) (r : submit_req) (s : db) :
  ~ submit_unacceptable r ->
  devices (exec (SubmitJob id ledgerId epochTimestamp r) s) =
  map (fun d => if String.eqb (d_user_id d) (sj_device_id r)
                then mkDevice (d_id d) (d_user_id d) (d_url d) (d_cpu_cores d)
                              (d_cpu_load d) (d_ram_total d) (d_ram_used d)
                              (d_disk_free d) "BUSY" (d_last_seen d)
                else d)
      (devices s).
Proof.
  intros H.
  assert (Hm : submit_missing r = false).
  { destruct (submit_missing r) eqn:Hm; [|reflexivity].
    apply submit_missing_iff in Hm. unfold submit_unacceptable in H. tauto. }
  assert (Hl : lang_ok (sj_lang r) = true).
  { destruct (lang_ok (sj_lang r)) eqn:Hl; [reflexivity|].
    exfalso. apply H. do 6 right.
    split; intros E; rewrite E in Hl; discriminate Hl. }
  destruct (sj_cost_usd r) as [[|c|t]|] eqn:Hc.
  2:{ unfold exec. destruct (Num.is_nan c) eqn:Hnan.
      - now rewrite (submit_job_nan id ledgerId epochTimestamp r Hm Hl c s Hc Hnan).
      - now rewrite (submit_job_number id ledgerId epochTimestamp r Hm Hl c s Hc Hnan). }
  1,2: unfold exec;

    now rewrite (submit_job_not_number id ledgerId epochTimestamp r Hm Hl _ s Hc)
      by discriminate.
  exfalso. assert (submit_missing r = true); [|congruence].
  apply submit_missing_iff. tauto.
Qed.

Lemma submit_job_marks_device_busy_witness :
  map d_status
      (devices (exec (SubmitJob "j1" "l1" "100" Sample.bad_cost) Sample.registered))
  = ["BUSY"].
Proof.
  rewrite (submit_job_marks_device_busy "j1" "l1" "100" Sample.bad_cost
             Sample.registered).
  - reflexivity.
  - unfold submit_unacceptable. simpl.
    intros [H|[H|[H|[H|[H|[H|[H _]]]]]]]; try discriminate H.
    now apply H.
Defined.

(** ** The job table over time *)

Lemma exec_job_payload (o : op) (s : db) (i : nat) (j : job) :
  nth_error (jobs s) i = Some j ->
  exists j', nth_error (jobs (exec o s)) i = Some j' /\ payload j' = payload j.
Proof.
  intros Hnth. destruct o as [id now r| |u|u|id lid ts r|r|u].
  - rewrite jobs_exec_heartbeat. now exists j.
  - rewrite exec_read_only by exact I. now exists j.
  - rewrite exec_read_only by exact I. now exists j.
  - rewrite jobs_exec_check.
    destruct (Sql.first (queued_for u) (jobs s)) as [q|]; [|now exists j].
    rewrite update_nth, Hnth. simpl.
    destruct (has_id (j_id q) j); eexists; split; reflexivity.
  - destruct (jobs_exec_submit id lid ts r s) as [-> | ->].
    + now exists j.
    + exists j. now rewrite nth_error_app1 by (apply nth_error_Some; congruence).
  - rewrite jobs_exec_update. destruct (truthy (uj_job_id r)); [|now exists j].
    rewrite update_nth, Hnth. simpl.
    destruct (has_id (uj_job_id r) j); eexists; split; reflexivity.
  - rewrite exec_read_only by exact I. now exists j.
Qed.

(** X7: no sequence of requests deletes, moves or re-addresses a job: the
    row keeps its place, and its id, requester, device, filename, language,
    code and cost stay as submitted. *)
Theorem job_payload_is_immutable (ops : list op) (s : db) (i : nat) (j : job) :
  nth_error (jobs s) i = Some j ->
  exists j',
    nth_error (jobs (exec_all ops s)) i = Some j' /\
    j_id j' = j_id j /\ j_requester j' = j_requester j /\
    j_device_id j' = j_device_id j /\ j_filename j' = j_filename j /\
    j_lang j' = j_lang j /\ j_code j' = j_code j /\
    j_cost_usd j' = j_cost_usd j.
Proof.
  intros Hnth.
  assert (H : exists j', nth_error (jobs (exec_all ops s)) i = Some j' /\
                         payload j' = payload j).
  { revert s j Hnth. induction ops as [|o ops IH]; intros s j Hnth.
    - now exists j.
    - destruct (exec_job_payload o s i j Hnth) as (j1 & Hnth1 & Hp1).
      destruct (IH (exec o s) j1 Hnth1) as (j' & Hnth' & Hp').
      exists j'. split; [exact Hnth'|congruence]. }
  destruct H as (j' & Hnth' & Hp). exists j'. split; [exact Hnth'|].
  unfold payload in Hp. injection Hp as -> -> -> -> -> -> ->.
  repeat split.
Qed.

Lemma job_payload_is_immutable_witness :
  exists j',
    nth_error (jobs (exec_all [CheckForJobs "bob"; UpdateJob Cases.report]
                              Sample.one_queued)) 0 = Some j' /\
    j_id j' = "j1" /\ j_requester j' = "alice" /\
    j_device_id j' = "bob" /\ j_filename j' = "main.py" /\
    j_lang j' = "python" /\ j_code j' = "print(1)" /\
    j_cost_usd j' = Some (SNum (Num.of_Z 1)).
Proof.
  apply (job_payload_is_immutable [CheckForJobs "bob"; UpdateJob Cases.report]
           Sample.one_queued 0%nat (new_job "j1" Sample.alice_to_bob)).
  reflexivity.
Defined.

Lemma ids_exec (o : op) (s : db) :
  map j_id (jobs (exec o s)) = map j_id (jobs s) \/
  exists id lid ts r,
    o = SubmitJob id lid ts r /\
    map j_id (jobs (exec o s)) = map j_id (jobs s) ++ [id].
Proof.
  destruct o as [id now r| |u|u|id lid ts r|r|u].
  - left. now rewrite jobs_exec_heartbeat.
  - left. now rewrite exec_read_only.
  - left. now rewrite exec_read_only.
  - left. rewrite jobs_exec_check.
    destruct (Sql.first (queued_for u) (jobs s)); [|reflexivity].
    now apply update_column.
  - destruct (jobs_exec_submit id lid ts r s) as [-> | ->]; [now left|].
    right. exists id, lid, ts, r. split; [reflexivity|]. now rewrite map_app.
  - left. rewrite jobs_exec_update.
    destruct (truthy (uj_job_id r)); [|reflexivity].
    now apply update_column.
  - left. now rewrite exec_read_only.
Qed.

(** X8: job ids stay unique under every request, provided that a submission
    brings an id that no job of the table has. *)
Theorem fresh_ids_keep_job_ids_unique (o : op) (s : db) :
  unique_job_ids s ->
  (forall id lid ts r, o = SubmitJob id lid ts r ->
                       forall j, In j (jobs s) -> j_id j <> id) ->
  unique_job_ids (exec o s).
Proof.
  unfold unique_job_ids. intros Huniq Hfresh.
  destruct (ids_exec o s) as [-> | (id & lid & ts & r & Ho & ->)]; [assumption|].
  apply NoDup_app; [assumption|repeat constructor; intros []|].
  intros x Hx [<-|[]].
  apply in_map_iff in Hx. destruct Hx as (j & Hj & Hin).
  exact (Hfresh id lid ts r Ho j Hin Hj).
Qed.

Lemma fresh_ids_keep_job_ids_unique_witness :
  unique_job_ids (exec (SubmitJob "j2" "l2" "101" Sample.bob_to_alice)
                       Sample.one_queued).
Proof.
  apply fresh_ids_keep_job_ids_unique.
  - unfold unique_job_ids. simpl. repeat constructor. intros [].
  - intros id lid ts r [= <- _ _ _] j [<-|[]]. discriminate.
Defined.

(** ** Submitting and polling *)

Lemma polled_id_check (u : string) (s : db) :
  polled_id (fst (step (CheckForJobs u) s)) =
  option_map j_id (Sql.first (queued_for u) (jobs s)).
Proof.
  unfold step, serve, handle, check_for_jobs, bind, query, run, reply.
  destruct (Sql.first (queued_for u) (jobs s)); reflexivity.
Qed.

(** X9: a job submitted under a fresh id to a device that has nothing
    queued is the one the device's next poll hands out, with the lang, code
    and filename of the submission, and the poll turns it to RUNNING. *)
Theorem submitted_job_is_polled_next
        (id ledgerId epochTimestamp : string) (r : submit_req)
        (cost_usd : number) (s : db) :
  submit_missing r = false ->
  lang_ok (sj_lang r) = true ->
  sj_cost_usd r = Some (SNum cost_usd) ->
  Num.is_nan cost_usd = false ->
  unique_job_ids s ->
  (forall j, In j (jobs s) -> j_id j <> id) ->
  (forall j, In j (jobs s) -> ~ is_queued_for (sj_device_id r) j) ->
  let s1 := exec (SubmitJob id ledgerId epochTimestamp r) s in
  fst (step (CheckForJobs (sj_device_id r)) s1) =
    c_json (JObj [("job",
                   JObj [("id", JStr id); ("lang", JStr (sj_lang r));
                         ("code", JStr (sj_code r));
                         ("filename", JStr (sj_filename r))])]) /\
  jobs (exec (CheckForJobs (sj_device_id r)) s1) =
    jobs s ++ [mkJob id (sj_requester r) (sj_device_id r) (sj_filename r)
                     (sj_lang r) (sj_code r) RUNNING (sj_cost_usd r) "" ""].
Proof.
  intros Hm Hl Hc Hnan Huniq Hfresh Hidle s1.
  assert (Hjobs : jobs s1 = jobs s ++ new_job id r :: []).
  { subst s1.
    now rewrite (exec_submit id ledgerId epochTimestamp r cost_usd Hm Hl Hc Hnan). }
  assert (Hfirst : Sql.first (queued_for (sj_device_id r)) (jobs s1) =
                   Some (new_job id r)).
  { rewrite Hjobs. apply first_of_split.
    - intros j Hj. apply queued_for_false. now apply Hidle.
    - unfold queued_for. simpl. now rewrite String.eqb_refl. }
  split.
  - unfold step, serve, handle, check_for_jobs, bind, query, run, reply.
    now rewrite Hfirst.
  - rewrite jobs_exec_check, Hfirst, Hjobs.
    rewrite (update_by_id_one_row (set_status RUNNING) (jobs s) [] (new_job id r)).
    + reflexivity.
    + rewrite map_app. simpl. unfold unique_job_ids in Huniq.
      apply NoDup_app; [assumption|repeat constructor; intros []|].
      intros x Hx [<-|[]]. apply in_map_iff in Hx.
      destruct Hx as (j & Hj & Hin). exact (Hfresh j Hin Hj).
Qed.

Lemma submitted_job_is_polled_next_witness :
  fst (step (CheckForJobs "bob") Sample.one_queued) =
    c_json (JObj [("job",
                   JObj [("id", JStr "j1"); ("lang", JStr "python");
                         ("code", JStr "print(1)");
                         ("filename", JStr "main.py")])]) /\
  jobs (exec (CheckForJobs "bob") Sample.one_queued) =
    [mkJob "j1" "alice" "bob" "main.py" "python" "print(1)" RUNNING
           (Some (SNum (Num.of_Z 1))) "" ""].
Proof.
  apply (submitted_job_is_polled_next "j1" "l1" "100" Sample.alice_to_bob
           (Num.of_Z 1) Sample.registered eq_refl eq_refl eq_refl eq_refl).
  - constructor.
  - intros j [].
  - intros j [].
Defined.

Lemma ids_unique_at_end (ops : list op) (s : db) :
  ids_unique_along ops s -> unique_job_ids (exec_all ops s).
Proof.
  revert s. induction ops as [|o ops IH]; intros s [Hs Hrest]; [exact Hs|].
  simpl. now apply IH.
Qed.

Lemma exec_all_job_rank (ops : list op) (s : db) (i : nat) (j : job) :
  ids_unique_along ops s ->
  nth_error (jobs s) i = Some j ->
  exists j',
    nth_error (jobs (exec_all ops s)) i = Some j' /\
    j_id j' = j_id j /\ (rank (j_status j) <= rank (j_status j'))%nat.
Proof.
  revert s j. induction ops as [|o ops IH]; intros s j Huniq Hnth.
  - exists j. simpl. auto.
  - destruct Huniq as [Hs Hrest].
    destruct (exec_job_row o s i j Hs Hnth) as (j1 & Hnth1 & Hid1 & Hmove).
    destruct (IH (exec o s) j1 Hrest Hnth1) as (j' & Hnth' & Hid' & Hrank).
    exists j'. simpl. split; [exact Hnth'|]. split; [congruence|].
    assert (rank (j_status j) <= rank (j_status j1))%nat; [|lia].
    destruct Hmove as [E|[(u & _ & Ea & Eb)|(r & _ & _ & Eb)]].
    + rewrite E. lia.
    + rewrite Ea, Eb. simpl. lia.
    + rewrite Eb. destruct (j_status j); simpl; lia.
Qed.

(** X10: while job ids are unique, a job that a poll has handed out is
    handed out by no later poll of any device, whatever requests come in
    between. *)
Theorem polled_job_is_never_polled_again
        (u v i : string) (ops : list op) (s : db) :
  unique_job_ids s ->
  polled_id (fst (step (CheckForJobs u) s)) = Some i ->
  ids_unique_along ops (exec (CheckForJobs u) s) ->
  polled_id (fst (step (CheckForJobs v)
                       (exec_all ops (exec (CheckForJobs u) s)))) <> Some i.
Proof.
  intros Huniq Hpoll Halong Hagain.
  rewrite polled_id_check in Hpoll, Hagain.
  destruct (Sql.first (queued_for u) (jobs s)) as [q|] eqn:Eq; [|discriminate].
  injection Hpoll as Hi.
  destruct (first_some _ _ _ Eq) as [Hin _].
  destruct (In_nth_error _ _ Hin) as [k Hk].
  assert (Hk1 : nth_error (jobs (exec (CheckForJobs u) s)) k =
                Some (set_status RUNNING q)).
  { rewrite jobs_exec_check, Eq, update_nth, Hk. simpl.
    unfold has_id. now rewrite String.eqb_refl. }
  destruct (exec_all_job_rank ops _ k _ Halong Hk1) as (j' & Hnth' & Hid' & Hrank).
  simpl in Hid', Hrank.
  destruct (Sql.first (queued_for v) _) as [q'|] eqn:Eq'; [|discriminate].
  injection Hagain as Hi'.
  destruct (first_some _ _ _ Eq') as [Hin' Hqueued].
  apply queued_for_iff in Hqueued. destruct Hqueued as [_ Hst].
  assert (q' = j').
  { apply (same_id_same_job (jobs (exec_all ops (exec (CheckForJobs u) s)))).
    - now apply ids_unique_at_end.
    - exact Hin'.
    - eapply nth_error_In; eauto.
    - congruence. }
  subst q'. rewrite Hst in Hrank. simpl in Hrank. lia.
Qed.

Lemma polled_job_is_never_polled_again_witness :
  polled_id (fst (step (CheckForJobs "bob")
                       (exec_all [Heartbeat "d2" "t1" Sample.laptop_later]
                                 (exec (CheckForJobs "bob") Sample.one_queued))))
  <> Some "j1".
Proof.
  apply (polled_job_is_never_polled_again "bob" "bob" "j1"
           [Heartbeat "d2" "t1" Sample.laptop_later] Sample.one_queued).
  - unfold unique_job_ids. simpl. repeat constructor. intros [].
  - reflexivity.
  - simpl. unfold unique_job_ids. simpl.
    repeat split; repeat constructor; intros [].
Defined.

(** ** Result reports on a known job *)

Lemma update_ext {row : Type} (p p' : row -> bool) (f : row -> row) (t : list row) :
  (forall x, p x = p' x) -> Sql.update p f t = Sql.update p' f t.
Proof.
  intros H. unfold Sql.update. apply map_ext. intros x. now rewrite H.
Qed.

Lemma update_twice {row : Type} (p : row -> bool) (f : row -> row) (t : list row) :
  (forall x, p (f x) = p x) -> (forall x, f (f x) = f x) ->
  Sql.update p f (Sql.update p f t) = Sql.update p f t.
Proof.
  intros Hp Hf. unfold Sql.update. rewrite map_map. apply map_ext.
  intros x. destruct (p x) eqn:E.
  - now rewrite Hp, E, Hf.
  - now rewrite E.
Qed.

Lemma first_by_id_unique (pre post : list job) (q : job) :
  NoDup (map j_id (pre ++ q :: post)) ->
  forall x, In x pre -> has_id (j_id q) x = false.
Proof.
  intros Huniq x Hx. rewrite map_app in Huniq. simpl in Huniq.
  apply NoDup_remove_2 in Huniq.
  destruct (has_id (j_id q) x) eqn:E; [|reflexivity].
  apply has_id_iff in E. exfalso. apply Huniq. rewrite <- E.
  apply in_or_app. left. now apply in_map.
Qed.

(** X11: a result report for the id of a job of the table, ids being
    unique, answers with success, sets that job and no other to FINISHED with
    the reported stdout and stderr (empty when not given), whatever its
    status was, and sets every row of the job's device to ACTIVE, also when
    other jobs of that device are still QUEUED or RUNNING; nothing else
    changes. *)
Theorem update_job_finishes_and_frees_device
        (r : update_req) (s : db) (pre post : list job) (q : job) :
  uj_job_id r <> "" ->
  unique_job_ids s ->
  jobs s = pre ++ q :: post ->
  j_id q = uj_job_id r ->
  step (UpdateJob r) s =
  (c_json success_body,
   mkDb (map (fun d => if String.eqb (d_user_id d) (j_device_id q)
                       then mkDevice (d_id d) (d_user_id d) (d_url d)
                                     (d_cpu_cores d) (d_cpu_load d)
                                     (d_ram_total d) (d_ram_used d)
                                     (d_disk_free d) "ACTIVE" (d_last_seen d)
                       else d)
             (devices s))
        (pre ++ mkJob (j_id q) (j_requester q) (j_device_id q) (j_filename q)
                      (j_lang q) (j_code q) FINISHED (j_cost_usd q)
                      (match uj_stdout r with Some t => t | None => "" end)
                      (match uj_stderr r with Some t => t | None => "" end)
             :: post)
        (ledger s) (budgets s)).
Proof.
  intros Hid Huniq Hjobs Hq.
  assert (Ht : truthy (uj_job_id r) = true).
  { destruct (truthy (uj_job_id r)) eqn:E; [reflexivity|].
    apply truthy_string_false in E. contradiction. }
  unfold unique_job_ids in Huniq. rewrite Hjobs in Huniq.
  unfold step, serve, handle, update_job. rewrite Ht. simpl.
  unfold bind, run, reply, with_jobs, with_devices. simpl.
  rewrite Hjobs, <- Hq, (update_by_id_one_row _ pre post q Huniq).
  rewrite !text_or_empty_value. f_equal. f_equal.
  apply update_ext. intros d. unfold device_of_job. simpl.
  rewrite first_of_split.
  - reflexivity.
  - now apply first_by_id_unique with (post := post).
  - unfold has_id. simpl. apply String.eqb_refl.
Qed.

Lemma update_job_finishes_and_frees_device_witness :
  step (UpdateJob Cases.report) Sample.one_queued =
  (c_json success_body,
   mkDb [device_of "d1" "t0" Sample.laptop]
        [mkJob "j1" "alice" "bob" "main.py" "python" "print(1)" FINISHED
               (Some (SNum (Num.of_Z 1))) "1" ""]
        (ledger Sample.one_queued) (budgets Sample.one_queued)).
Proof.
  apply (update_job_finishes_and_frees_device Cases.report Sample.one_queued
           [] [] (new_job "j1" Sample.alice_to_bob)).
  - discriminate.
  - unfold unique_job_ids. simpl. repeat constructor. intros [].
  - reflexivity.
  - reflexivity.
Defined.

(** X12: a result report is idempotent: sending the same report a second
    time leaves the store as the first left it. *)
Theorem update_job_is_idempotent (r : update_req) (s : db) :
  exec (UpdateJob r) (exec (UpdateJob r) s) = exec (UpdateJob r) s.
Proof.
  unfold exec, step, serve, handle, update_job.
  destruct (truthy (uj_job_id r)); [|reflexivity].
  unfold bind, run, reply, with_jobs, with_devices. simpl.
  rewrite (update_twice (has_id (uj_job_id r))) by reflexivity.
  f_equal. apply update_twice; [|reflexivity].
  intros d. unfold device_of_job. simpl.
  destruct (Sql.first (has_id (uj_job_id r)) _); reflexivity.
Qed.

(** ** The ledger and the budget table over time *)

(** What a request does to the ledger and the budgets, with the cost of
    the submission that wrote. *)
Lemma exec_writes_ledger (o : op) (s : db) :
  (ledger (exec o s) = ledger s /\ budgets (exec o s) = budgets s) \/
  (exists id lid ts r c,
      o = SubmitJob id lid ts r /\
      sj_cost_usd r = Some (SNum c) /\
      exec o s = submitted id lid ts r (amountCents c) s).
Proof.
  destruct (exec_ledger_budgets o s)
    as [H|(id & lid & ts & r & c0 & Ho & _)]; [now left|].
  subst o. destruct (submit_missing r) eqn:Hm.
  { left. unfold exec, step, serve, handle, submit_job. rewrite Hm. now split. }
  destruct (lang_ok (sj_lang r)) eqn:Hl.
  2:{ left. unfold exec, step, serve, handle, submit_job. rewrite Hm, Hl. now split. }
  destruct (sj_cost_usd r) as [[|c|t]|] eqn:Hc.
  2:{ destruct (Num.is_nan c) eqn:Hnan.
      - left. unfold exec.
        rewrite (submit_job_nan id lid ts r Hm Hl c s Hc Hnan). now split.
      - right. exists id, lid, ts, r, c.
        split; [reflexivity|]. split; [exact Hc|].
        unfold exec.
        now rewrite (submit_job_number id lid ts r Hm Hl c s Hc Hnan). }
  all: left; unfold exec, step, serve, handle, submit_job;
    rewrite Hm, Hl, Hc; now split.

Qed.

(** X13: the ledger is append-only: no sequence of requests changes or
    removes an entry, and every entry that is added was written by a
    submission of the sequence whose cost_usd is a number, with that
    submission's ids, parties, converted amount and time stamp. *)
Theorem ledger_is_append_only (ops : list op) (s : db) :
  exists added,
    ledger (exec_all ops s) = ledger s ++ added /\
    forall e, In e added ->
      exists id lid ts r c,
        In (SubmitJob id lid ts r) ops /\
        sj_cost_usd r = Some (SNum c) /\
        e = mkLedger lid id (sj_requester r) (sj_device_id r) (amountCents c) ts.
Proof.
  revert s. induction ops as [|o ops IH]; intros s.
  - exists []. split; [now rewrite app_nil_r|]. intros e [].
  - destruct (IH (exec o s)) as (added & Hadded & Hfrom). simpl.
    destruct (exec_writes_ledger o s)
      as [[Hl _]|(id & lid & ts & r & c & Ho & Hc & Hs)].
    + exists added. split; [now rewrite Hadded, Hl|].
      intros e He. destruct (Hfrom e He) as (id & lid & ts & r & c & Hin & Hrest).
      exists id, lid, ts, r, c. split; [now right|exact Hrest].
    + exists (mkLedger lid id (sj_requester r) (sj_device_id r) (amountCents c) ts
                :: added).
      split.
      { rewrite Hadded, Hs. unfold submitted, Sql.insert. simpl.
        now rewrite <- app_assoc. }
      intros e [<-|He].
      { exists id, lid, ts, r, c. subst o. repeat split; [now left|exact Hc]. }
      destruct (Hfrom e He) as (id' & lid' & ts' & r' & c' & Hin & Hrest).
      exists id', lid', ts', r', c'. split; [now right|exact Hrest].
Qed.

Lemma has_budget_row_iff (u : string) (s : db) :
  has_budget_row u s <-> In u (map b_user_id (budgets s)).
Proof.
  unfold has_budget_row. rewrite in_map_iff. split.
  - intros (b & Hin & Hu). now exists b.
  - intros (b & Hu & Hin). now exists b.
Qed.

Lemma first_budget_none (u : string) (bs : list budget) :
  Sql.first (budget_of u) bs = None -> ~ In u (map b_user_id bs).
Proof.
  intros E Hin. apply in_map_iff in Hin. destruct Hin as (b & Hu & Hin).
  pose proof (proj1 (first_none _ _) E b Hin) as Hfalse.
  apply budget_of_iff in Hu. congruence.
Qed.

Lemma charge_sender_users (u : string) (amount : number) (bs : list budget) :
  map b_user_id (charge_sender u amount bs) =
  map b_user_id bs ++
  match Sql.first (budget_of u) bs with Some _ => [] | None => [u] end.
Proof.
  unfold charge_sender. rewrite update_column by reflexivity.
  destruct (Sql.first (budget_of u) bs); simpl.
  - now rewrite app_nil_r.
  - unfold Sql.insert. now rewrite map_app.
Qed.

Lemma credit_receiver_users (u : string) (amount : number) (bs : list budget) :
  map b_user_id (credit_receiver u amount bs) =
  map b_user_id bs ++
  match Sql.first (budget_of u) bs with Some _ => [] | None => [u] end.
Proof.
  unfold credit_receiver. rewrite update_column by reflexivity.
  destruct (Sql.first (budget_of u) bs); simpl.
  - now rewrite app_nil_r.
  - unfold Sql.insert. now rewrite map_app.
Qed.

Lemma users_after_write (u : string) (users : list string) (found : option budget) :
  (found = None -> ~ In u users) ->
  (found <> None -> In u users) ->
  NoDup users ->
  let users' := users ++ match found with Some _ => [] | None => [u] end in
  NoDup users' /\ In u users' /\ (forall x, In x users -> In x users').
Proof.
  intros Hnone Hsome Huniq. destruct found as [b|]; simpl.
  - rewrite app_nil_r. repeat split; auto. apply Hsome. discriminate.
  - repeat split.
    + apply NoDup_app; [assumption|repeat constructor; intros []|].
      intros x Hx [<-|[]]. now apply Hnone.
    + apply in_or_app. right. now left.
    + intros x Hx. apply in_or_app. now left.
Qed.

Lemma first_budget_some (u : string) (bs : list budget) :
  Sql.first (budget_of u) bs <> None -> In u (map b_user_id bs).
Proof.
  destruct (Sql.first (budget_of u) bs) as [b|] eqn:E; [|contradiction].
  intros _. destruct (first_some _ _ _ E) as [Hin Hu].
  apply budget_of_iff in Hu. rewrite <- Hu. now apply in_map.
Qed.

(** The budget writes of a submission keep one row per user, give both
    parties a row and drop no row. *)
Lemma submitted_budget_users (req dev : string) (amount : number) (bs : list budget) :
  NoDup (map b_user_id bs) ->
  let bs' := credit_receiver dev amount (charge_sender req amount bs) in
  NoDup (map b_user_id bs') /\
  In req (map b_user_id bs') /\ In dev (map b_user_id bs') /\
  (forall x, In x (map b_user_id bs) -> In x (map b_user_id bs')).
Proof.
  intros Huniq bs'. subst bs'.
  destruct (users_after_write req (map b_user_id bs)
              (Sql.first (budget_of req) bs)
              (first_budget_none req bs) (first_budget_some req bs) Huniq)
    as (Hu1 & Hreq & Hkeep1).
  rewrite <- charge_sender_users with (amount := amount) in Hu1, Hreq, Hkeep1.
  destruct (users_after_write dev (map b_user_id (charge_sender req amount bs))
              (Sql.first (budget_of dev) (charge_sender req amount bs))
              (first_budget_none dev _) (first_budget_some dev _) Hu1)
    as (Hu2 & Hdev & Hkeep2).
  rewrite <- credit_receiver_users with (amount := amount) in Hu2, Hdev, Hkeep2.
  repeat split; auto.
Qed.

Lemma stored_first (u : string) (bs : list budget) :
  stored u bs = Sql.first (budget_of u) bs.
Proof.
  unfold stored, Sql.first, budget_of.
  induction bs as [|b bs IH]; simpl; [reflexivity|].
  rewrite IH. destruct (string_dec (b_user_id b) u) as [E|E].
  - apply String.eqb_eq in E. now rewrite E.
  - apply String.eqb_neq in E. now rewrite E.
Qed.

Lemma update_keeps_other {row : Type} (p : row -> bool) (f : row -> row)
      (t : list row) (x : row) :
  In x t -> p x = false -> In x (Sql.update p f t).
Proof.
  intros Hin Hp. unfold Sql.update. apply in_map_iff.
  exists x. now rewrite Hp.
Qed.

Lemma or_default (x dflt : number) :
  js_or x dflt =
  if PrimFloat.eqb x 0%float || PrimFloat.is_nan x then dflt else x.
Proof.
  unfold js_or, truthy, truthy_number, Num.eqb, Num.is_nan.
  change (Num.of_Z 0) with 0%float.
  now destruct (PrimFloat.eqb x 0 || PrimFloat.is_nan x).
Qed.

Section BudgetRows.

Variables (req dev : string) (amount : number) (bs : list budget).

(** The requester's row after the sender's update. *)
Lemma charged_row :
  Sql.first (budget_of req) (charge_sender req amount bs) =
  Some (set_spent
          (Num.sub (field_or (option_map b_spent_cents
                                         (Sql.first (budget_of req) bs))
                             (Num.of_Z 0)) amount)
          (match Sql.first (budget_of req) bs with
           | Some b0 => b0
           | None => mkBudget req (Num.of_Z 0) (Num.of_Z 0)
           end)).
Proof.
  unfold charge_sender. rewrite first_update by reflexivity.
  destruct (Sql.first (budget_of req) bs) as [b0|] eqn:E.
  - cbn [option_map truthy truthy_option]. rewrite E. cbn [option_map].
    destruct (first_some _ _ _ E) as [_ Hb0]. now rewrite Hb0.
  - cbn [option_map truthy truthy_option]. rewrite first_insert, E.
    rewrite budget_of_refl. cbn [option_map]. now rewrite budget_of_refl.
Qed.

(** The device's row after the receiver's update. *)
Lemma credited_row :
  Sql.first (budget_of dev) (credit_receiver dev amount bs) =
  Some (set_earned
          (Num.add (field_or (option_map b_earned_cents
                                         (Sql.first (budget_of dev) bs))
                             (Num.of_Z 1000)) amount)
          (match Sql.first (budget_of dev) bs with
           | Some b0 => b0
           | None => mkBudget dev (Num.of_Z 0) (Num.of_Z 1000)
           end)).
Proof.
  unfold credit_receiver. rewrite first_update by reflexivity.
  destruct (Sql.first (budget_of dev) bs) as [b0|] eqn:E.
  - cbn [option_map truthy truthy_option]. rewrite E. cbn [option_map].
    destruct (first_some _ _ _ E) as [_ Hb0]. now rewrite Hb0.
  - cbn [option_map truthy truthy_option]. rewrite first_insert, E.
    rewrite budget_of_refl. cbn [option_map]. now rewrite budget_of_refl.
Qed.

(** A row found before the receiver's update is found after it, with its
    earned cents rewritten when it is the device's. *)
Lemma credited_other_row (u : string) (b : budget) :
  Sql.first (budget_of u) bs = Some b ->
  Sql.first (budget_of u) (credit_receiver dev amount bs) =
  Some (if budget_of dev b
        then set_earned
               (Num.add (field_or (option_map b_earned_cents
                                              (Sql.first (budget_of dev) bs))
                                  (Num.of_Z 1000)) amount) b
        else b).
Proof.
  intros E. unfold credit_receiver. rewrite first_update by reflexivity.
  destruct (truthy (option_map b_earned_cents (Sql.first (budget_of dev) bs))).
  - now rewrite E.
  - now rewrite first_insert, E.
Qed.

Lemma charge_sender_keeps (b : budget) :
  In b bs -> b_user_id b <> req -> In b (charge_sender req amount bs).
Proof.
  intros Hin Hne. unfold charge_sender. apply update_keeps_other.
  - destruct (truthy _); [assumption|]. apply in_or_app. now left.
  - unfold budget_of. now apply String.eqb_neq.
Qed.

Lemma credit_receiver_keeps (b : budget) :
  In b bs -> b_user_id b <> dev -> In b (credit_receiver dev amount bs).
Proof.
  intros Hin Hne. unfold credit_receiver. apply update_keeps_other.
  - destruct (truthy _); [assumption|]. apply in_or_app. now left.
  - unfold budget_of. now apply String.eqb_neq.
Qed.

End BudgetRows.

(** C10: a submission that passes the field, language and cost checks and
    names a device that has no row succeeds with the new job id and changes
    no device row; the QUEUED job and the ledger entry are appended.  The
    requester's row (a new one when there was none) gets spent cents of the
    stored value, 0 when there was no row or the stored value is a zero or
    NaN, minus the amount; the device's row (a new one when there was none)
    gets earned cents of the stored value, 1000 when there was no row or
    the stored value is a zero or NaN, plus the amount.  When the two
    differ, the requester's earned cents and the device's spent cents stay
    as stored (0 in a new row); the rows of all other users stay as they
    are, and there is still one row per user. *)
Theorem submit_job_unregistered_device
        (id ledgerId epochTimestamp : string) (r : submit_req)
        (cost_usd : number) (s : db) :
  submit_missing r = false ->
  lang_ok (sj_lang r) = true ->
  sj_cost_usd r = Some (SNum cost_usd) ->
  Num.is_nan cost_usd = false ->
  unique_budget_users s ->
  (forall d, In d (devices s) -> d_user_id d <> sj_device_id r) ->
  let s' := exec (SubmitJob id ledgerId epochTimestamp r) s in
  let amount := amountCents cost_usd in
  let had_req := stored (sj_requester r) (budgets s) in
  let had_dev := stored (sj_device_id r) (budgets s) in
  fst (step (SubmitJob id ledgerId epochTimestamp r) s) =
    c_json (JObj [("success", JBool true); ("job_id", JStr id)]) /\
  devices s' = devices s /\
  jobs s' =
    jobs s ++ [mkJob id (sj_requester r) (sj_device_id r) (sj_filename r)
                     (sj_lang r) (sj_code r) QUEUED (Some (SNum cost_usd)) "" ""] /\
  ledger s' =
    ledger s ++ [mkLedger ledgerId id (sj_requester r) (sj_device_id r)
                          amount epochTimestamp] /\
  unique_budget_users s' /\
  (exists b,
      In b (budgets s') /\ b_user_id b = sj_requester r /\
      b_spent_cents b =
        PrimFloat.sub
          (match had_req with
           | Some b0 =>
               if PrimFloat.eqb (b_spent_cents b0) 0%float
                  || PrimFloat.is_nan (b_spent_cents b0)
               then 0%float else b_spent_cents b0
           | None => 0%float
           end) amount /\
      (sj_requester r <> sj_device_id r ->
       b_earned_cents b =
         match had_req with
         | Some b0 => b_earned_cents b0
         | None => 0%float
         end)) /\
  (exists b,
      In b (budgets s') /\ b_user_id b = sj_device_id r /\
      b_earned_cents b =
        PrimFloat.add
          (match had_dev with
           | Some b0 =>
               if PrimFloat.eqb (b_earned_cents b0) 0%float
                  || PrimFloat.is_nan (b_earned_cents b0)
               then 1000%float else b_earned_cents b0
           | None => 1000%float
           end) amount /\
      (sj_requester r <> sj_device_id r ->
       b_spent_cents b =
         match had_dev with
         | Some b0 => b_spent_cents b0
         | None => 0%float
         end)) /\
  (forall b0, In b0 (budgets s) ->
              b_user_id b0 <> sj_requester r -> b_user_id b0 <> sj_device_id r ->
              In b0 (budgets s')).
Proof.
  intros Hfields Hlang Hcost Hnan Huniq Hnodev s' amount had_req had_dev.
  pose proof (submit_job_number id ledgerId epochTimestamp r Hfields Hlang
                                cost_usd s Hcost Hnan) as Hstep.
  subst s' had_req had_dev. unfold exec. rewrite Hstep, !stored_first.
  cbn [fst snd devices jobs ledger budgets submitted].
  fold amount.
  set (req := sj_requester r). set (dev := sj_device_id r).
  set (bs := budgets s).
  split; [reflexivity|]. split.
  { apply update_no_match. now apply no_device_of_user. }
  split.
  { unfold new_job, Sql.insert. now rewrite Hcost. }
  split; [reflexivity|].
  destruct (submitted_budget_users req dev amount bs Huniq)
    as (Huniq' & _ & _ & _).
  split; [exact Huniq'|].
  pose proof (charged_row req amount bs) as Hb1.
  set (b1 := set_spent _ _) in Hb1.
  assert (Hb1_user : b_user_id b1 = req).
  { destruct (first_some _ _ _ Hb1) as [_ H]. now apply budget_of_iff in H. }
  pose proof (credited_other_row dev amount _ req b1 Hb1) as Hb2.
  pose proof (credited_row dev amount (charge_sender req amount bs)) as Hd2.
  split; [|split].
  - eexists. split; [exact (proj1 (first_some _ _ _ Hb2))|].
    assert (Hspent : forall z, b_spent_cents (if budget_of dev b1
                                              then set_earned z b1 else b1)
                               = b_spent_cents b1)
      by (intros z; destruct (budget_of dev b1); reflexivity).
    split.
    { destruct (budget_of dev b1); exact Hb1_user. }
    split.
    { rewrite Hspent. subst b1. cbn [b_spent_cents set_spent].
      unfold Num.sub. f_equal.
      destruct (Sql.first (budget_of req) bs) as [b0|]; cbn [option_map field_or].
      - apply or_default.
      - reflexivity. }
    intros Hne.
    assert (Hfalse : budget_of dev b1 = false).
    { unfold budget_of. apply String.eqb_neq. congruence. }
    rewrite Hfalse. subst b1. cbn [b_earned_cents set_spent].
    now destruct (Sql.first (budget_of req) bs).
  - eexists. split; [exact (proj1 (first_some _ _ _ Hd2))|].
    split.
    { destruct (first_some _ _ _ Hd2) as [_ H]. now apply budget_of_iff in H. }
    split.
    { cbn [b_earned_cents set_earned]. unfold Num.add. f_equal.
      assert (Hsame : field_or (option_map b_earned_cents
                        (Sql.first (budget_of dev) (charge_sender req amount bs)))
                        (Num.of_Z 1000) =
                      field_or (option_map b_earned_cents
                                  (Sql.first (budget_of dev) bs)) (Num.of_Z 1000)).
      { destruct (string_dec dev req) as [E|E].
        - rewrite E.
          destruct (charge_sender_row req amount bs) as (_ & _ & _ & H).
          exact H.
        - now rewrite charge_sender_other. }
      rewrite Hsame.
      destruct (Sql.first (budget_of dev) bs) as [b0|]; cbn [option_map field_or].
      - apply or_default.
      - reflexivity. }
    intros Hne. cbn [b_spent_cents set_earned].
    rewrite charge_sender_other by congruence.
    now destruct (Sql.first (budget_of dev) bs).
  - intros b0 Hin Hreq Hdev.
    apply credit_receiver_keeps; [|exact Hdev].
    now apply charge_sender_keeps.
Qed.

Lemma submit_job_unregistered_device_witness :
  fst (step (SubmitJob "j1" "l1" "100" Sample.alice_to_bob) empty_db) =
    c_json (JObj [("success", JBool true); ("job_id", JStr "j1")]) /\
  devices (exec (SubmitJob "j1" "l1" "100" Sample.alice_to_bob) empty_db) = [] /\
  jobs (exec (SubmitJob "j1" "l1" "100" Sample.alice_to_bob) empty_db) =
    [mkJob "j1" "alice" "bob" "main.py" "python" "print(1)" QUEUED
           (Some (SNum (Num.of_Z 1))) "" ""].
Proof.
  destruct (submit_job_unregistered_device "j1" "l1" "100" Sample.alice_to_bob
              (Num.of_Z 1) empty_db eq_refl eq_refl eq_refl eq_refl)
    as (Hresp & Hdev & Hjobs & _).
  - constructor.
  - intros d [].
  - repeat split; assumption.
Defined.

Lemma exec_keeps_job_parties (o : op) (s : db) (j : job) :
  In j (jobs s) ->
  exists j', In j' (jobs (exec o s)) /\ payload j' = payload j.
Proof.
  intros Hin. destruct (In_nth_error _ _ Hin) as [i Hi].
  destruct (exec_job_payload o s i j Hi) as (j' & Hi' & Hp).
  exists j'. split; [eapply nth_error_In; eauto|exact Hp].
Qed.

(** X14: in every store reached from the empty one, there is at most one
    budget row per user, both parties of every ledger entry have a budget
    row, and every ledger entry names a job of the table, with the job's
    requester as payer and the job's device as payee. *)
Theorem reachable_store_is_consistent (ops : list op) :
  unique_budget_users (exec_all ops empty_db) /\
  parties_have_rows (exec_all ops empty_db) /\
  ledger_backed (exec_all ops empty_db).
Proof.
  assert (Hstep : forall o s,
             unique_budget_users s /\ parties_have_rows s /\ ledger_backed s ->
             unique_budget_users (exec o s) /\ parties_have_rows (exec o s) /\
             ledger_backed (exec o s)).
  { intros o s (Huniq & Hrows & Hback).
    assert (Hback' : forall e, In e (ledger s) ->
              exists j, In j (jobs (exec o s)) /\ j_id j = l_job_id e /\
                        j_requester j = l_from_user e /\
                        j_device_id j = l_to_user e).
    { intros e He. destruct (Hback e He) as (j & Hj & Hid & Hfrom & Hto).
      destruct (exec_keeps_job_parties o s j Hj) as (j' & Hj' & Hp).
      exists j'. unfold payload in Hp. injection Hp as E1 E2 E3 _ _ _ _.
      split; [exact Hj'|]. repeat split; congruence. }
    destruct (exec_writes_ledger o s)
      as [[Hl Hb]|(id & lid & ts & r & c & Ho & Hc & Hs)].
    - split; [unfold unique_budget_users; now rewrite Hb|]. split.
      + intros e He. rewrite Hl in He. destruct (Hrows e He) as [Hf Ht].
        rewrite !has_budget_row_iff in *. now rewrite Hb.
      + intros e He. rewrite Hl in He. now apply Hback'.
    - destruct (submitted_budget_users (sj_requester r) (sj_device_id r)
                  (amountCents c) (budgets s) Huniq)
        as (Hu & Hreq & Hdev & Hkeep).
      split; [unfold unique_budget_users; now rewrite Hs|]. split.
      + intros e He. rewrite !has_budget_row_iff.
        rewrite Hs in He |- *. simpl in He |- *.
        apply in_app_or in He. destruct He as [He|[<-|[]]].
        * destruct (Hrows e He) as [Hf Ht].
          rewrite !has_budget_row_iff in Hf, Ht. split; now apply Hkeep.
        * simpl. now split.
      + intros e He. pose proof (Hback' e) as Hold.
        rewrite Hs in He, Hold |- *. simpl in He, Hold |- *.
        apply in_app_or in He. destruct He as [He|[<-|[]]]; [now apply Hold|].
        exists (new_job id r). split; [|now repeat split].
        apply in_or_app. right. now left. }
  induction ops as [|o ops IH] using rev_ind.
  - split; [apply NoDup_nil|]. split; intros e [].
  - rewrite exec_all_app. simpl. now apply Hstep.
Qed.

(** ** Middleware *)

Lemma key_differs_iff (apiKey adminKey : option string) :
  key_differs apiKey adminKey = false <-> apiKey = adminKey.
Proof.
  destruct apiKey as [a|], adminKey as [b|]; simpl.
  - rewrite negb_false_iff, String.eqb_eq. split; congruence.
  - split; discriminate.
  - split; discriminate.
  - split; reflexivity.
Qed.

(** X18: the Access-Control-Allow-Origin header that the CORS middleware
    sets is always one of the allowed origins: the request's origin when it
    is listed, the first listed origin otherwise, also when the request has
    no Origin header; an OPTIONS request is answered 204 without running
    the rest of the chain, so it writes nothing. *)
Theorem cors_reflects_listed_origins_only
        {A : Type} (method : string) (origin : option string)
        (next : db -> A * db) (s : db) :
  exists h,
    header_of "Access-Control-Allow-Origin"
              (fst (corsMiddleware method origin next s)) = Some h /\
    In h allowedOrigins /\
    (forall o, origin = Some o -> In o allowedOrigins -> h = o) /\
    (forall o, origin = Some o -> ~ In o allowedOrigins ->
               h = "http://localhost:5173") /\
    (origin = None -> h = "http://localhost:5173") /\
    (method = "OPTIONS" ->
     corsMiddleware method origin next s =
     (Stopped 204 None (corsHeaders origin), s)).
Proof.
  exists (allow_origin origin).
  assert (Hlisted : forall o, existsb (String.eqb o) allowedOrigins = true <->
                              In o allowedOrigins).
  { intros o. rewrite existsb_exists. split.
    - intros (x & Hx & E). apply String.eqb_eq in E. now subst.
    - intros H. exists o. split; [exact H|apply String.eqb_refl]. }
  split.
  { unfold corsMiddleware. destruct (String.eqb method "OPTIONS"); [reflexivity|].
    destruct (next s). reflexivity. }
  split.
  { unfold allow_origin. destruct origin as [o|]; unfold includes.
    - destruct (existsb (String.eqb o) allowedOrigins) eqn:E.
      + now apply Hlisted.
      + simpl. now left.
    - simpl. now left. }
  split.
  { intros o -> Hin. unfold allow_origin. unfold includes.
    now rewrite (proj2 (Hlisted o) Hin). }
  split.
  { intros o -> Hout. unfold allow_origin. unfold includes.
    destruct (existsb (String.eqb o) allowedOrigins) eqn:E; [|reflexivity].
    apply Hlisted in E. contradiction. }
  split.
  { intros ->. reflexivity. }
  intros ->. reflexivity.
Qed.

Lemma cors_reflects_listed_origins_only_witness :
  header_of "Access-Control-Allow-Origin"
            (fst (corsMiddleware "GET" (Some "https://evil.example")
                                 (step (GetBudget "alice")) empty_db)) =
  Some "http://localhost:5173".
Proof.
  destruct (cors_reflects_listed_origins_only "GET" (Some "https://evil.example")
              (step (GetBudget "alice")) empty_db)
    as (h & Hh & _ & _ & Hout & _).
  rewrite Hh. f_equal. apply (Hout "https://evil.example" eq_refl).
  simpl. intros [H|[H|[]]]; discriminate H.
Defined.

(** X19: the admin check lets a request through exactly when it is an
    OPTIONS request or its Api-Key header equals the configured admin key,
    which includes a request without the header when no key is configured;
    every other request is answered 403 Unauthorized and the rest of the
    chain does not run. *)
Theorem admin_check_compares_keys
        {A : Type} (method : string) (apiKey adminKey : option string)
        (next : db -> A * db) (s : db) :
  (method = "OPTIONS" \/ apiKey = adminKey ->
   validateAdminRequest method apiKey adminKey next s =
   (Continued [] (fst (next s)), snd (next s))) /\
  (method <> "OPTIONS" -> apiKey <> adminKey ->
   validateAdminRequest method apiKey adminKey next s =
   (Stopped 403 (Some "Unauthorized") [], s)).
Proof.
  unfold validateAdminRequest. split.
  - intros [-> | Hkey].
    + simpl. now destruct (next s).
    + apply key_differs_iff in Hkey. rewrite Hkey.
      destruct (String.eqb method "OPTIONS"); now destruct (next s).
  - intros Hm Hkey. apply String.eqb_neq in Hm. rewrite Hm.
    destruct (key_differs apiKey adminKey) eqn:E; [reflexivity|].
    apply key_differs_iff in E. contradiction.
Qed.

Lemma admin_check_compares_keys_witness :
  validateAdminRequest "POST" None None (step (UpdateJob Cases.report))
                       Sample.one_queued =
  (Continued [] (fst (step (UpdateJob Cases.report) Sample.one_queued)),
   snd (step (UpdateJob Cases.report) Sample.one_queued)).
Proof.
  apply (proj1 (admin_check_compares_keys "POST" None None
                  (step (UpdateJob Cases.report)) Sample.one_queued)).
  right. reflexivity.
Defined.

(** ** Who writes what, and what the requester sees *)

(** X20: only a submission writes to the ledger and to the budgets: a
    heartbeat, a poll, a result report and the three queries leave both
    tables as they are, so finishing a job neither charges nor refunds. *)
Theorem only_submissions_move_money (o : op) (s : db) :
  (forall id lid ts r, o <> SubmitJob id lid ts r) ->
  ledger (exec o s) = ledger s /\ budgets (exec o s) = budgets s.
Proof.
  intros Hnot.
  destruct (exec_ledger_budgets o s)
    as [H|(id & lid & ts & r & c & Ho & _)]; [exact H|].
  now destruct (Hnot id lid ts r).
Qed.

Lemma only_submissions_move_money_witness :
  ledger (exec (UpdateJob Cases.report) Sample.one_queued) =
    ledger Sample.one_queued /\
  budgets (exec (UpdateJob Cases.report) Sample.one_queued) =
    budgets Sample.one_queued.
Proof.
  apply (only_submissions_move_money (UpdateJob Cases.report) Sample.one_queued).
  intros id lid ts r. discriminate.
Defined.

(** X21: after an accepted submission the requester's job listing is the
    listing from before followed by the new job, shown QUEUED with empty
    stdoutt and stderr. *)
Theorem submitted_job_is_listed
        (id ledgerId epochTimestamp : string) (r : submit_req)
        (cost_usd : number) (s : db) :
  submit_missing r = false ->
  lang_ok (sj_lang r) = true ->
  sj_cost_usd r = Some (SNum cost_usd) ->
  Num.is_nan cost_usd = false ->
  listed_items (fst (step (ListJobsForUser (sj_requester r))
                          (exec (SubmitJob id ledgerId epochTimestamp r) s))) =
  listed_items (fst (step (ListJobsForUser (sj_requester r)) s)) ++
  [JObj [("id", JStr id); ("filename", JStr (sj_filename r));
         ("lang", JStr (sj_lang r)); ("status", JStr "QUEUED");
         ("stdoutt", JStr ""); ("stderr", JStr "")]].
Proof.
  intros Hm Hl Hc Hnan.
  rewrite (exec_submit id ledgerId epochTimestamp r cost_usd Hm Hl Hc Hnan).
  unfold step, serve, handle, list_jobs, bind, query, reply, listed_items.
  simpl. rewrite all_insert, map_app.
  unfold requested_by at 2. simpl. now rewrite String.eqb_refl.
Qed.

Lemma submitted_job_is_listed_witness :
  listed_items (fst (step (ListJobsForUser "alice") Sample.one_queued)) =
  listed_items (fst (step (ListJobsForUser "alice") Sample.registered)) ++
  [JObj [("id", JStr "j1"); ("filename", JStr "main.py");
         ("lang", JStr "python"); ("status", JStr "QUEUED");
         ("stdoutt", JStr ""); ("stderr", JStr "")]].
Proof.
  exact (submitted_job_is_listed "j1" "l1" "100" Sample.alice_to_bob
           (Num.of_Z 1) Sample.registered eq_refl eq_refl eq_refl eq_refl).
Defined.

(** X22: when neither party has a budget row and the two differ, an
    accepted submission leaves the requester with spent cents of minus the
    amount and earned cents of 0, and the device with spent cents of 0 and
    earned cents of 1000 plus the amount, as GetBudget then reports; before
    the submission GetBudget reported 0 and 1000 for the requester. *)
Theorem first_submission_budgets
        (id ledgerId epochTimestamp : string) (r : submit_req)
        (cost_usd : number) (s : db) :
  submit_missing r = false ->
  lang_ok (sj_lang r) = true ->
  sj_cost_usd r = Some (SNum cost_usd) ->
  Num.is_nan cost_usd = false ->
  sj_requester r <> sj_device_id r ->
  (forall b, In b (budgets s) ->
             b_user_id b <> sj_requester r /\ b_user_id b <> sj_device_id r) ->
  let s' := exec (SubmitJob id ledgerId epochTimestamp r) s in
  fst (step (GetBudget (sj_requester r)) s) =
    c_json (JObj [("spent_cents", JNum (Num.of_Z 0));
                  ("earned_cents", JNum (Num.of_Z 1000))]) /\
  fst (step (GetBudget (sj_requester r)) s') =
    c_json (JObj [("spent_cents",
                   JNum (Num.sub (Num.of_Z 0) (amountCents cost_usd)));
                  ("earned_cents", JNum (Num.of_Z 0))]) /\
  fst (step (GetBudget (sj_device_id r)) s') =
    c_json (JObj [("spent_cents", JNum (Num.of_Z 0));
                  ("earned_cents",
                   JNum (Num.add (Num.of_Z 1000) (amountCents cost_usd)))]).
Proof.
  intros Hm Hl Hc Hnan Hne Hnew s'. subst s'.
  rewrite (exec_submit id ledgerId epochTimestamp r cost_usd Hm Hl Hc Hnan).
  assert (Hreq : Sql.first (budget_of (sj_requester r)) (budgets s) = None).
  { apply first_none. intros b Hb. destruct (budget_of _ b) eqn:E; [|reflexivity].
    apply budget_of_iff in E. now destruct (proj1 (Hnew b Hb)). }
  assert (Hdev : Sql.first (budget_of (sj_device_id r)) (budgets s) = None).
  { apply first_none. intros b Hb. destruct (budget_of _ b) eqn:E; [|reflexivity].
    apply budget_of_iff in E. now destruct (proj2 (Hnew b Hb)). }
  assert (Hdev_req : forall x y, budget_of (sj_device_id r)
                                   (mkBudget (sj_requester r) x y) = false).
  { intros x y. unfold budget_of. simpl. now apply String.eqb_neq. }

  assert (Hreq_dev : forall x y, budget_of (sj_requester r)
                                   (mkBudget (sj_device_id r) x y) = false).
  { intros x y. unfold budget_of. simpl. apply String.eqb_neq. congruence. }
  assert (H1 : Sql.first (budget_of (sj_requester r))
                 (charge_sender (sj_requester r) (amountCents cost_usd) (budgets s))
               = Some (mkBudget (sj_requester r)
                         (Num.sub (Num.of_Z 0) (amountCents cost_usd))
                         (Num.of_Z 0))).
  { unfold charge_sender. rewrite Hreq. simpl.
    rewrite first_update by reflexivity. rewrite first_insert, Hreq.
    rewrite budget_of_refl. simpl. now rewrite budget_of_refl. }
  assert (H1d : Sql.first (budget_of (sj_device_id r))
                  (charge_sender (sj_requester r) (amountCents cost_usd) (budgets s))
                = None).
  { rewrite charge_sender_other by congruence. exact Hdev. }
  unfold step, serve, handle, get_budget, bind, query, reply, submitted. simpl.
  rewrite Hreq. split; [reflexivity|]. split.
  - unfold credit_receiver. rewrite H1d. simpl.
    rewrite first_update by reflexivity. rewrite first_insert, H1. simpl.
    now rewrite Hdev_req.
  - unfold credit_receiver. rewrite H1d. simpl.
    rewrite first_update by reflexivity. rewrite first_insert, H1d.
    rewrite budget_of_refl. simpl. now rewrite budget_of_refl.
Qed.

Lemma first_submission_budgets_witness :
  fst (step (GetBudget "alice") Sample.registered) =
    c_json (JObj [("spent_cents", JNum (Num.of_Z 0));
                  ("earned_cents", JNum (Num.of_Z 1000))]) /\
  fst (step (GetBudget "alice") Sample.one_queued) =
    c_json (JObj [("spent_cents",
                   JNum (Num.sub (Num.of_Z 0) (amountCents (Num.of_Z 1))));
                  ("earned_cents", JNum (Num.of_Z 0))]) /\
  fst (step (GetBudget "bob") Sample.one_queued) =
    c_json (JObj [("spent_cents", JNum (Num.of_Z 0));
                  ("earned_cents",
                   JNum (Num.add (Num.of_Z 1000) (amountCents (Num.of_Z 1))))]).
Proof.
  apply (first_submission_budgets "j1" "l1" "100" Sample.alice_to_bob
           (Num.of_Z 1) Sample.registered eq_refl eq_refl eq_refl eq_refl).

  - discriminate.
  - intros b [].
Defined.
